(** * The website-copy pipeline of [backend.py]

    A shallow embedding of the four agents ([ResearchAgent],
    [StrategyAgent], [CopywritingAgent], [EditorAgent]) and of
    [WebsiteCopySystem.generate_website_copy], followed by the properties
    of the pipeline.

    - Python strings are [string]; [List[str]] is [list string]; the
      result [Dict[str, str]] is an association list, because Python
      dictionaries keep insertion order and the order is observable.
    - Exceptions are values of [exn]; a computation that may raise returns
      [exn + A] ([inl] raised, [inr] returned).
    - The module-level [llm] client is the only effect.  The program runs
      in a small state-and-exception monad over a [heap] that holds the
      [CopyInput] object the caller passes by reference and the journal of
      the calls made to the client. *)

From Stdlib Require Import String Ascii List Arith Bool Lia.
Import ListNotations.
Open Scope list_scope.
Open Scope string_scope.

(** ** Python values *)

Module Py.

(** An exception instance: its class name and [str(e)]. *)
Record exn : Type := mk_exn { exn_class : string; str : string }.

Definition ValueError (msg : string) : exn := mk_exn "ValueError" msg.
Definition TypeError (msg : string) : exn := mk_exn "TypeError" msg.
Definition Exception (msg : string) : exn := mk_exn "Exception" msg.

(** [sep.join(items)]: the separator goes before every item but the
    first. *)
Fixpoint join_onto (sep : string) (acc : string) (items : list string) : string :=
  match items with
  | [] => acc
  | x :: rest => join_onto sep (acc ++ sep ++ x) rest
  end.

Definition join (sep : string) (items : list string) : string :=
  match items with
  | [] => EmptyString
  | x :: rest => join_onto sep x rest
  end.

(** A [dict] with [str] keys and values, in insertion order. *)
Definition dict : Type := list (string * string).

(** [d[k] = v]: an existing key keeps its position and takes the new
    value; a new key goes to the end. *)
Fixpoint dict_set (k v : string) (d : dict) : dict :=
  match d with
  | [] => [(k, v)]
  | (k', v') :: d' =>
      if String.eqb k' k then (k', v) :: d' else (k', v') :: dict_set k v d'
  end.

Fixpoint dict_get (k : string) (d : dict) : option string :=
  match d with
  | [] => None
  | (k', v') :: d' => if String.eqb k' k then Some v' else dict_get k d'
  end.

Definition keys (d : dict) : list string := map fst d.

End Py.

Import Py.

(** ** Prompt templates

    [ChatPromptTemplate.from_messages] reads each message as a template in
    the syntax of [str.format]: [{name}] is a replacement field, [{{] and
    [}}] stand for one brace.  The model covers literal text, doubled
    braces and fields whose name is a plain key.  A field that asks for
    more (a conversion [!r], a format specification [:>10], an attribute or
    an index, a positional or empty name) is reported as [Extended]; what
    the library does with such a template is left to the [library]
    parameter below, as is the text of its missing-variable error. *)

Module Template.

Inductive segment : Type :=
| Lit (c : ascii)
| Field (name : string).

Inductive parse_result : Type :=
| Parsed (segs : list segment)
| Invalid (e : exn)
| Extended.

Definition lbrace : ascii := "{"%char.
Definition rbrace : ascii := "}"%char.

Definition is_brace (c : ascii) : bool :=
  Ascii.eqb c lbrace || Ascii.eqb c rbrace.

(** Characters that start a conversion, a format specification or an
    accessor inside a replacement field. *)
Definition is_extension (c : ascii) : bool :=
  Ascii.eqb c "!"%char || Ascii.eqb c ":"%char || Ascii.eqb c "."%char
  || Ascii.eqb c "["%char || Ascii.eqb c "]"%char.

Definition is_digit (c : ascii) : bool :=
  ((48 <=? nat_of_ascii c) && (nat_of_ascii c <=? 57))%nat.

Fixpoint all_digits (s : string) : bool :=
  match s with
  | EmptyString => true
  | String c rest => is_digit c && all_digits rest
  end.

(** The empty name and the all-digit names address positional arguments. *)
Definition is_positional (name : string) : bool := all_digits name.

(** The scanner of [string.Formatter.parse], a loop over the characters.
    [done]: the segments read so far, last first.  [field = None]: reading
    literal text.  [field = Some name]: inside a replacement field, [name]
    read so far.  Errors carry the interpreter's messages. *)
Fixpoint scan (done : list segment) (field : option string) (s : string)
    : parse_result :=
  match field with
  | None =>
      match s with
      | EmptyString => Parsed (rev done)
      | String c rest =>
          if Ascii.eqb c lbrace then
            match rest with
            | EmptyString =>
                Invalid (ValueError "Single '{' encountered in format string")
            | String c' rest' =>
                if Ascii.eqb c' lbrace then scan (Lit lbrace :: done) None rest'
                else scan done (Some EmptyString) rest
            end
          else if Ascii.eqb c rbrace then
            match rest with
            | EmptyString =>
                Invalid (ValueError "Single '}' encountered in format string")
            | String c' rest' =>
                if Ascii.eqb c' rbrace then scan (Lit rbrace :: done) None rest'
                else Invalid (ValueError "Single '}' encountered in format string")
            end
          else scan (Lit c :: done) None rest
      end
  | Some name =>
      match s with
      | EmptyString => Invalid (ValueError "expected '}' before end of string")
      | String c rest =>
          if Ascii.eqb c rbrace then
            if is_positional name then Extended
            else scan (Field name :: done) None rest
          else if Ascii.eqb c lbrace then
            Invalid (ValueError "unexpected '{' in field name")
          else if is_extension c then Extended
          else scan done (Some (name ++ String c EmptyString)) rest
      end
  end.

Definition parse (template : string) : parse_result := scan [] None template.

(** The keyword arguments of [invoke]. *)
Definition kwargs : Type := list (string * string).

Fixpoint lookup (name : string) (kw : kwargs) : option string :=
  match kw with
  | [] => None
  | (k, v) :: kw' => if String.eqb k name then Some v else lookup name kw'
  end.

Fixpoint variables (segs : list segment) : list string :=
  match segs with
  | [] => []
  | Lit _ :: rest => variables rest
  | Field name :: rest => name :: variables rest
  end.

Definition missing (segs : list segment) (kw : kwargs) : list string :=
  filter (fun name => match lookup name kw with None => true | Some _ => false end)
         (variables segs).

(** Substitution; the values are not scanned again. *)
Fixpoint render (segs : list segment) (kw : kwargs) : string :=
  match segs with
  | [] => EmptyString
  | Lit c :: rest => String c (render rest kw)
  | Field name :: rest =>
      match lookup name kw with
      | Some v => v ++ render rest kw
      | None => render rest kw
      end
  end.

(** A text without braces, and the segments of a text read as literal. *)
Fixpoint no_braces (s : string) : bool :=
  match s with
  | EmptyString => true
  | String c rest => negb (is_brace c) && no_braces rest
  end.

Fixpoint lits (s : string) : list segment :=
  match s with
  | EmptyString => []
  | String c rest => Lit c :: lits rest
  end.

Inductive role : Type := system | human.

(** What reaches the client: the formatted messages, in order. *)
Definition prompt_value : Type := list (role * string).

(** What the prompt library decides on its own. *)
Record library : Type := mk_library {
  (** [from_messages] on a template with an [Extended] field: [Some e]
      raises [e], [None] accepts the template. *)
  extended_from_messages : string -> string -> option exn;
  (** [invoke] on such a template. *)
  extended_invoke : string -> string -> kwargs -> exn + prompt_value;
  (** The error raised when these variables have no value. *)
  missing_variables : list string -> exn
}.

(** A [ChatPromptTemplate] of one system and one human message. *)
Inductive ChatPromptTemplate : Type :=
| Plain (system_segs human_segs : list segment)
| Beyond (system_template human_template : string).

Section WithLibrary.

Variable lib : library.

(** [ChatPromptTemplate.from_messages([("system", s), ("human", h)])]:
    the templates are read in order. *)
Definition from_messages (s h : string) : exn + ChatPromptTemplate :=
  let beyond :=
    match extended_from_messages lib s h with
    | Some e => inl e
    | None => inr (Beyond s h)
    end in
  match parse s with
  | Invalid e => inl e
  | Extended => beyond
  | Parsed ss =>
      match parse h with
      | Invalid e => inl e
      | Extended => beyond
      | Parsed hs => inr (Plain ss hs)
      end
  end.

(** [prompt.invoke(kw)]: every variable of every message must have a
    value; then the messages are formatted. *)
Definition invoke (p : ChatPromptTemplate) (kw : kwargs) : exn + prompt_value :=
  match p with
  | Beyond s h => extended_invoke lib s h kw
  | Plain ss hs =>
      match missing (ss ++ hs)%list kw with
      | [] => inr [(system, render ss kw); (human, render hs kw)]
      | names => inl (missing_variables lib names)
      end
  end.

End WithLibrary.

End Template.

Import Template.

(** ** The program *)

Module Backend.

(** *** [CopyInput] *)

(** The dataclass.  [unique_selling_points] is declared [List[str] = None]:
    the field may hold [None] until [__post_init__] has run. *)
Record CopyInput : Type := mk_CopyInput {
  product : string;
  tone : string;
  length : string;
  industry : string;
  target_audience : string;
  brand_voice : string;
  unique_selling_points : option (list string)
}.

(** [self.unique_selling_points = self.unique_selling_points or []]:
    [None] and the empty list are falsy. *)
Definition post_init (self : CopyInput) : CopyInput :=
  mk_CopyInput (product self) (tone self) (length self) (industry self)
    (target_audience self) (brand_voice self)
    (match unique_selling_points self with
     | Some (x :: rest) => Some (x :: rest)
     | Some [] => Some []
     | None => Some []
     end).

(** [CopyInput(product, tone, length, industry, target_audience,
    brand_voice, unique_selling_points)]: the generated [__init__] stores
    the arguments and calls [__post_init__]. *)
Definition new_CopyInput (product tone length industry target_audience
                          brand_voice : string)
    (unique_selling_points : option (list string)) : CopyInput :=
  post_init (mk_CopyInput product tone length industry target_audience
               brand_voice unique_selling_points).

(** *** The client and the heap *)

(** The keys of [WebsiteCopySystem.agents]. *)
Inductive agent : Type :=
| ResearchAgent
| StrategyAgent
| CopywritingAgent
| EditorAgent.

(** One round trip of [prompt | llm]: who asked, what was sent, and what
    came back ([inr content], or [inl e] when the client raised [e]). *)
Record call : Type := mk_call {
  caller : agent;
  sent : prompt_value;
  reply : exn + string
}.

(** The text-generation service behind [llm].  Its answer may depend on
    everything it was asked before. *)
Definition client : Type := list call -> prompt_value -> exn + string.

Record heap : Type := mk_heap {
  copy_input : CopyInput;
  journal : list call
}.

(** *** Computations: state and exceptions *)

Definition M (A : Type) : Type := heap -> (exn + A) * heap.

Definition ret {A : Type} (a : A) : M A := fun h => (inr a, h).

Definition raise {A : Type} (e : exn) : M A := fun h => (inl e, h).

Definition bind {A B : Type} (m : M A) (k : A -> M B) : M B :=
  fun h =>
    match m h with
    | (inl e, h') => (inl e, h')
    | (inr a, h') => k a h'
    end.

(** [try: m except Exception as e: handler(e)].  The values of [exn]
    stand for instances of [Exception]; what is not one ([KeyboardInterrupt],
    [SystemExit]) is outside the model. *)
Definition try_except {A : Type} (m : M A) (handler : exn -> M A) : M A :=
  fun h =>
    match m h with
    | (inl e, h') => handler e h'
    | (inr a, h') => (inr a, h')
    end.

(** A pure step that may raise. *)
Definition lift {A : Type} (r : exn + A) : M A := fun h => (r, h).

Definition read_copy_input : M CopyInput := fun h => (inr (copy_input h), h).

Notation "x <- m ;; k" := (bind m (fun x => k))
  (at level 61, m at next level, right associativity).

(** *** Templates *)

Definition research_system : string :=
  "You are an expert market researcher specializing in {industry}.".

Definition research_human : string :=
  "
                Product: {product}
                Target Audience: {audience}
                Industry: {industry}
                
                Provide detailed insights about:
                1. Demographics and psychographics
                2. Pain points and challenges
                3. Motivations and goals
                4. Online behavior and preferences
                5. Purchase decision factors
            ".

Definition strategy_human : string :=
  "
                Research: {research}
                Product: {product}
                Tone: {tone}
                USPs: {usps}
                
                Create a content strategy with:
                1. Key messages and themes
                2. Tone guidelines
                3. Section priorities
                4. Conversion goals
            ".

Definition copywriting_system : string :=
  "Expert copywriter creating {length} {tone} content.".

Definition copywriting_human : string :=
  "
                Strategy: {strategy}
                Section: {section}
                Product: {product}
                Brand Voice: {brand_voice}
                USPs: {usps}
                
                Write compelling copy focusing on:
                - Clear value proposition
                - Engaging headlines
                - {tone} body copy of {length} length
                - Strategic CTAs
            ".

Definition editor_system : string :=
  "You are an expert copy editor.".

Definition editor_human : string :=
  "
                Review this website copy:
                {copy}
                
                Improve:
                - Clarity and conciseness
                - Persuasiveness
                - Brand voice consistency
                - Grammar and style
            ".

(** The system message of [StrategyAgent] is an f-string: the tone is
    pasted into the template text before the library reads it. *)
Definition strategy_system (tone : string) : string :=
  "You are a content strategist specializing in " ++ tone ++ " copy.".

(** [", ".join(copy_input.unique_selling_points)] *)
Definition joined_usps (ci : CopyInput) : exn + string :=
  match unique_selling_points ci with
  | Some usps => inr (join ", " usps)
  | None => inl (TypeError "can only join an iterable")
  end.

Section Program.

Variable lib : library.
Variable llm : client.

(** [chain.invoke(...)] past the prompt: the client is called, the call is
    journalled, [result.content] is returned. *)
Definition llm_invoke (who : agent) (value : prompt_value) : M string :=
  fun h =>
    let r := llm (journal h) value in
    (r, mk_heap (copy_input h) (journal h ++ [mk_call who value r])%list).

(** *** The agents *)

Definition analyze_target_audience : M string :=
  prompt <- lift (from_messages lib research_system research_human) ;;
  ci <- read_copy_input ;;
  value <- lift (invoke lib prompt
                   [("industry", industry ci);
                    ("product", product ci);
                    ("audience", target_audience ci)]) ;;
  llm_invoke ResearchAgent value.

Definition create_content_strategy (research_data : string) : M string :=
  ci <- read_copy_input ;;
  prompt <- lift (from_messages lib (strategy_system (tone ci)) strategy_human) ;;
  usps <- lift (joined_usps ci) ;;
  value <- lift (invoke lib prompt
                   [("research", research_data);
                    ("product", product ci);
                    ("tone", tone ci);
                    ("usps", usps)]) ;;
  llm_invoke StrategyAgent value.

Definition write_website_copy (strategy section : string) : M string :=
  prompt <- lift (from_messages lib copywriting_system copywriting_human) ;;
  ci <- read_copy_input ;;
  usps <- lift (joined_usps ci) ;;
  value <- lift (invoke lib prompt
                   [("length", length ci);
                    ("tone", tone ci);
                    ("strategy", strategy);
                    ("section", section);
                    ("product", product ci);
                    ("brand_voice", brand_voice ci);
                    ("usps", usps)]) ;;
  llm_invoke CopywritingAgent value.

Definition review_copy (copy : string) : M string :=
  prompt <- lift (from_messages lib editor_system editor_human) ;;
  value <- lift (invoke lib prompt [("copy", copy)]) ;;
  llm_invoke EditorAgent value.

(** *** [WebsiteCopySystem] *)

(** The [for section in sections] loop, with the dictionary built so
    far. *)
Fixpoint for_sections (strategy : string) (sections : list string)
    (section_copy : dict) : M dict :=
  match sections with
  | [] => ret section_copy
  | section :: rest =>
      initial_copy <- write_website_copy strategy section ;;
      final_copy <- review_copy initial_copy ;;
      for_sections strategy rest (dict_set section final_copy section_copy)
  end.

Definition generate_website_copy (sections : list string) : M dict :=
  try_except
    (research <- analyze_target_audience ;;
     strategy <- create_content_strategy research ;;
     for_sections strategy sections [])
    (fun e => raise (Exception ("Copy generation failed: " ++ str e))).

End Program.

End Backend.

Import Backend.


(** ** What each agent sends

    The messages of each agent written out: the template text with the
    values in place.  The lemmas of the next section show that these are
    what the agents build. *)

Module Sent.

Definition research_text (ci : CopyInput) : string :=
  "
                Product: " ++ product ci ++ "
                Target Audience: " ++ target_audience ci ++ "
                Industry: " ++ industry ci ++ "
                
                Provide detailed insights about:
                1. Demographics and psychographics
                2. Pain points and challenges
                3. Motivations and goals
                4. Online behavior and preferences
                5. Purchase decision factors
            ".

Definition research_value (ci : CopyInput) : prompt_value :=
  [(system, "You are an expert market researcher specializing in " ++ industry ci ++ ".");
   (human, research_text ci)].

Definition strategy_text (research_data : string) (ci : CopyInput) (usps : string) : string :=
  "
                Research: " ++ research_data ++ "
                Product: " ++ product ci ++ "
                Tone: " ++ tone ci ++ "
                USPs: " ++ usps ++ "
                
                Create a content strategy with:
                1. Key messages and themes
                2. Tone guidelines
                3. Section priorities
                4. Conversion goals
            ".

Definition strategy_value (research_data : string) (ci : CopyInput) (usps : string) : prompt_value :=
  [(system, "You are a content strategist specializing in " ++ tone ci ++ " copy.");
   (human, strategy_text research_data ci usps)].

Definition copywriting_instruction (ci : CopyInput) : string :=
  "Expert copywriter creating " ++ length ci ++ " " ++ tone ci ++ " content.".

Definition copywriting_text (strategy section : string) (ci : CopyInput) (usps : string) : string :=
  "
                Strategy: " ++ strategy ++ "
                Section: " ++ section ++ "
                Product: " ++ product ci ++ "
                Brand Voice: " ++ brand_voice ci ++ "
                USPs: " ++ usps ++ "
                
                Write compelling copy focusing on:
                - Clear value proposition
                - Engaging headlines
                - " ++ tone ci ++ " body copy of " ++ length ci ++ " length
                - Strategic CTAs
            ".

Definition copywriting_value (strategy section : string) (ci : CopyInput) (usps : string) : prompt_value :=
  [(system, copywriting_instruction ci);
   (human, copywriting_text strategy section ci usps)].

Definition editor_value (copy : string) : prompt_value :=
  [(system, "You are an expert copy editor.");
   (human, "
                Review this website copy:
                " ++ copy ++ "
                
                Improve:
                - Clarity and conciseness
                - Persuasiveness
                - Brand voice consistency
                - Grammar and style
            ")].

End Sent.

Import Sent.

(** ** Vocabulary of the statements *)

Module Run.

(** The pure part of each agent: the prompt value it hands to the client,
    or the exception raised while building it. *)
Definition research_request (lib : library) (ci : CopyInput) : exn + prompt_value :=
  match from_messages lib research_system research_human with
  | inl e => inl e
  | inr prompt =>
      invoke lib prompt
        [("industry", industry ci);
         ("product", product ci);
         ("audience", target_audience ci)]
  end.

Definition strategy_request (lib : library) (research_data : string)
    (ci : CopyInput) : exn + prompt_value :=
  match from_messages lib (strategy_system (tone ci)) strategy_human with
  | inl e => inl e
  | inr prompt =>
      match joined_usps ci with
      | inl e => inl e
      | inr usps =>
          invoke lib prompt
            [("research", research_data);
             ("product", product ci);
             ("tone", tone ci);
             ("usps", usps)]
      end
  end.

Definition copywriting_request (lib : library) (strategy section : string)
    (ci : CopyInput) : exn + prompt_value :=
  match from_messages lib copywriting_system copywriting_human with
  | inl e => inl e
  | inr prompt =>
      match joined_usps ci with
      | inl e => inl e
      | inr usps =>
          invoke lib prompt
            [("length", length ci);
             ("tone", tone ci);
             ("strategy", strategy);
             ("section", section);
             ("product", product ci);
             ("brand_voice", brand_voice ci);
             ("usps", usps)]
      end
  end.

Definition editor_request (lib : library) (copy : string) : exn + prompt_value :=
  match from_messages lib editor_system editor_human with
  | inl e => inl e
  | inr prompt => invoke lib prompt [("copy", copy)]
  end.

(** The segments of a template that reads without error. *)
Definition segments (template : string) : list segment :=
  match parse template with
  | Parsed segs => segs
  | _ => []
  end.

(** The outcome and the final heap of a computation. *)
Definition outcome {A : Type} (m : M A) (h : heap) : exn + A := fst (m h).
Definition final {A : Type} (m : M A) (h : heap) : heap := snd (m h).

(** The calls a computation added to the journal. *)
Definition new_calls {A : Type} (m : M A) (h : heap) : list call :=
  skipn (List.length (journal h)) (journal (final m h)).

Definition answered (c : call) : Prop := exists text, reply c = inr text.

(** What the orchestrator raises for the cause [e]. *)
Definition wrapped (e : exn) : exn :=
  Exception ("Copy generation failed: " ++ str e).

(** One processed section: its name, the draft, the edited copy. *)
Record written : Type := mk_written {
  section_of : string;
  draft_of : string;
  final_of : string
}.

(** The two calls of each processed section, in processing order. *)
Fixpoint section_calls (ci : CopyInput) (usps strategy : string)
    (done : list written) : list call :=
  match done with
  | [] => []
  | w :: rest =>
      mk_call CopywritingAgent
        (copywriting_value strategy (section_of w) ci usps) (inr (draft_of w))
      :: mk_call EditorAgent (editor_value (draft_of w)) (inr (final_of w))
      :: section_calls ci usps strategy rest
  end.

(** The dictionary after storing the processed sections in order. *)
Definition stored (done : list written) (d : dict) : dict :=
  fold_left (fun acc w => dict_set (section_of w) (final_of w) acc) done d.

(** The distinct names of a list, each at the place of its first
    occurrence. *)
Fixpoint first_occurrences (names : list string) : list string :=
  match names with
  | [] => []
  | x :: rest =>
      x :: filter (fun y => negb (String.eqb x y)) (first_occurrences rest)
  end.

(** The body of the [try] block of [generate_website_copy]. *)
Definition attempt (lib : library) (llm : client) (sections : list string) : M dict :=
  research <- analyze_target_audience lib llm ;;
  strategy <- create_content_strategy lib llm research ;;
  for_sections lib llm strategy sections [].

(** The journal of a computation that stops at the first failure: every
    call is answered, except that the last one may have raised the
    exception the computation ends with. *)
Definition tidy {A : Type} (r : exn + A) (new : list call) : Prop :=
  match r with
  | inr _ => Forall answered new
  | inl e =>
      Forall answered new \/
      exists before c,
        new = (before ++ [c])%list /\ Forall answered before /\ reply c = inl e
  end.

(** A computation that leaves the [CopyInput] alone, only adds calls to
    the journal, all of them by agents in [who], and stops at the first
    failure. *)
Definition orderly {A : Type} (who : agent -> Prop) (m : M A) : Prop :=
  forall h : heap,
  exists new : list call,
    final m h = mk_heap (copy_input h) (journal h ++ new) /\
    tidy (outcome m h) new /\
    Forall (fun c => who (caller c)) new.

(** A computation whose outcome and new calls do not depend on what the
    journal held before. *)
Definition insensitive {A : Type} (m : M A) : Prop :=
  forall (ci : CopyInput) (j1 j2 : list call),
  exists (r : exn + A) (new : list call),
    m (mk_heap ci j1) = (r, mk_heap ci (j1 ++ new)) /\
    m (mk_heap ci j2) = (r, mk_heap ci (j2 ++ new)).

(** An agent: a prompt value built from the [CopyInput], then one call. *)
Definition agent_shape (llm : client) (who : agent)
    (request : CopyInput -> exn + prompt_value) (m : M string) : Prop :=
  forall h : heap,
    m h = match request (copy_input h) with
          | inl e => (inl e, h)
          | inr value => llm_invoke llm who value h
          end.

(** The agents of the per-section loop, and the two that run before it. *)
Definition drafting (a : agent) : Prop := a = CopywritingAgent \/ a = EditorAgent.
Definition planning (a : agent) : Prop := a = ResearchAgent \/ a = StrategyAgent.

(** [y not in ks] *)
Definition absent (ks : list string) (y : string) : bool :=
  negb (existsb (String.eqb y) ks).

(** The text of the first message with the given role. *)
Fixpoint message (r : role) (value : prompt_value) : option string :=
  match value with
  | [] => None
  | (r', text) :: rest =>
      match r, r' with
      | system, system | human, human => Some text
      | _, _ => message r rest
      end
  end.

(** A client whose answer depends on the prompt only. *)
Definition stateless (llm : client) : Prop :=
  forall (j1 j2 : list call) (value : prompt_value), llm j1 value = llm j2 value.

(** A client that never raises. *)
Definition reliable (llm : client) : Prop :=
  forall (j : list call) (value : prompt_value), exists text, llm j value = inr text.

(** The keyword arguments of the strategy prompt. *)
Abbreviation strategy_kwargs research_data ci usps :=
  [("research", research_data); ("product", product ci);
   ("tone", tone ci); ("usps", usps)].

(** Reading a template that is a constant of the program. *)
Ltac read_template t :=
  let r := eval vm_compute in (parse t) in
  let H := fresh "Hparse" in
  assert (H : parse t = r) by (vm_compute; reflexivity);
  rewrite H; clear H.

End Run.

Import Run.

(** ** Sample inputs *)

Module Sample.

(** A prompt library that accepts extended templates, formats nothing for
    them, and names the missing variables in its error. *)
Definition lib : library :=
  mk_library
    (fun _ _ => None)
    (fun _ _ _ => inr [])
    (fun names => mk_exn "KeyError" (join ", " names)).

(** A client that answers with the human message it received. *)
Definition echo : client :=
  fun _ value =>
    match value with
    | [_; (_, text)] => inr text
    | _ => inr EmptyString
    end.

(** A client that answers every prompt with the same text. *)
Definition constant : client := fun _ _ => inr "copy".

(** A client that raises on its [n]-th call, counted from 1, and answers
    the others. *)
Definition fails_on (n : nat) : client :=
  fun j _ =>
    if Nat.eqb (S (List.length j)) n
    then inl (mk_exn "RuntimeError" "rate limit exceeded")
    else inr "copy".

(** A client that answers its [n]-th call, counted from 0, with the digit
    [n]. *)
Definition numbered : client :=
  fun j _ => inr (String (ascii_of_nat (48 + List.length j)) EmptyString).

(** The request of the example at the end of [backend.py]. *)
Definition input_data : CopyInput :=
  new_CopyInput "food delivery website" "informative" "short" "food delivery"
    "young urban professionals" "friendly and reliable"
    (Some ["30-minute delivery"; "local restaurants"; "no minimum order"]).

Definition sections : list string := ["homepage"; "about"; "services"; "contact"].

(** Requests that differ from [input_data] in one field. *)
Definition with_tone (t : string) : CopyInput :=
  new_CopyInput "food delivery website" t "short" "food delivery"
    "young urban professionals" "friendly and reliable"
    (Some ["30-minute delivery"; "local restaurants"; "no minimum order"]).

Definition with_product (p : string) : CopyInput :=
  new_CopyInput p "informative" "short" "food delivery"
    "young urban professionals" "friendly and reliable"
    (Some ["30-minute delivery"; "local restaurants"; "no minimum order"]).

Definition fresh (ci : CopyInput) : heap := mk_heap ci [].

(** A run that asks for the home page twice. *)
Definition twice : list string := ["homepage"; "about"; "homepage"].

Definition run_twice : (exn + dict) * heap :=
  generate_website_copy lib numbered twice (fresh input_data).

Definition result_twice : dict := [("homepage", "7"); ("about", "5")].

(** The example of [backend.py], with the constant client. *)
Definition run_example : (exn + dict) * heap :=
  generate_website_copy lib constant sections (fresh input_data).

(** The client raises on its third call. *)
Definition run_third_fails : (exn + dict) * heap :=
  generate_website_copy lib (fails_on 3) ["homepage"] (fresh input_data).

(** The client raises on its second call. *)
Definition run_second_fails : (exn + dict) * heap :=
  generate_website_copy lib (fails_on 2) sections (fresh input_data).


End Sample.

(** ** The example script of [backend.py] *)

Module Script.

Definition newline : string := String (ascii_of_nat 10) EmptyString.

(** The standard output: whether a [print] raises, knowing what was
    printed before.  A [print] that raises prints nothing. *)
Definition console : Type := list string -> string -> option exn.

(** How the script ends: what it printed, one string for each [print],
    the journal of the client, and the exception that left the script, if
    one did. *)
Record ending : Type := mk_ending {
  printed : list string;
  journal_after : list call;
  uncaught : option exn
}.

Section Main.

(** [str.upper], a function of the interpreter. *)
Variable upper : string -> string.
Variable lib : library.
Variable llm : client.
Variable out : console.

(** What the loop over [results.items()] prints: two [print] calls for
    each entry. *)
Definition print_results (results : dict) : list string :=
  flat_map
    (fun entry =>
       [newline ++ "=== " ++ upper (fst entry) ++ " ==="; snd entry])
    results.

(** The [print] calls in order, until one raises. *)
Fixpoint print_each (texts : list string) (so_far : list string)
    : option exn * list string :=
  match texts with
  | [] => (None, so_far)
  | text :: rest =>
      match out so_far text with
      | Some e => (Some e, so_far)
      | None => print_each rest (so_far ++ [text])%list
      end
  end.

(** [except Exception as e: print(f"Error: {e}")]; an exception of this
    [print] leaves the script. *)
Definition report (e : exn) (so_far : list string) (j : list call) : ending :=
  match out so_far ("Error: " ++ str e) with
  | None => mk_ending (so_far ++ [("Error: " ++ str e)%string])%list j None
  | Some e' => mk_ending so_far j (Some e')
  end.

(** The block under [if __name__ == "__main__"].  The loop that prints is
    inside the [try]. *)
Definition main (journal_before : list call) : ending :=
  match generate_website_copy lib llm Sample.sections
          (mk_heap Sample.input_data journal_before) with
  | (inr results, h) =>
      match print_each (print_results results) [] with
      | (None, so_far) => mk_ending so_far (journal h) None
      | (Some e, so_far) => report e so_far (journal h)
      end
  | (inl e, h) => report e [] (journal h)
  end.

End Main.

End Script.

(** ** [frontend.py]

    One run of the Streamlit script, from [init_session_state()] to the
    end of the block under the [Generate Copy] button.  The values of the
    widgets are the input ([form]); the effects are the entries of
    [st.session_state] that the script reads and writes, the calls to the
    client, the operations on the file system and the [st.error] and
    [st.success] notices.  The entries Streamlit keeps on its own for
    keyed widgets are never read by the script and are not followed.  The
    part of [main] after [# Display Results] only reads the session state
    and draws widgets; it is not modelled. *)

Module Frontend.

(** What the script and its widgets keep in [st.session_state]. *)
Inductive value : Type :=
| Copy (d : dict)
| Flag (b : bool)
| Text (s : string).

Definition session_state : Type := list (string * value).

Fixpoint state_get (k : string) (s : session_state) : option value :=
  match s with
  | [] => None
  | (k', v) :: s' => if String.eqb k' k then Some v else state_get k s'
  end.

Fixpoint state_set (k : string) (v : value) (s : session_state) : session_state :=
  match s with
  | [] => [(k, v)]
  | (k', v') :: s' =>
      if String.eqb k' k then (k', v) :: s' else (k', v') :: state_set k v s'
  end.

(** [k in st.session_state] *)
Definition state_has (k : string) (s : session_state) : bool :=
  match state_get k s with
  | Some _ => true
  | None => false
  end.

Definition init_session_state (s : session_state) : session_state :=
  let s1 :=
    if state_has "generated_copy" s then s
    else state_set "generated_copy" (Copy []) s in
  if state_has "generation_complete" s1 then s1
  else state_set "generation_complete" (Flag false) s1.

(** The file system: the operations of [save_results], and whether each
    one raised. *)
Inductive fs_op : Type :=
| Mkdir (dir : string)
| WriteText (path content : string).

Record fs_event : Type := mk_fs_event {
  operation : fs_op;
  raised : option exn
}.

(** The operating system decides, knowing what was done before. *)
Definition os : Type := list fs_event -> fs_op -> option exn.

Inductive notice : Type :=
| Error (msg : string)
| Success (msg : string).

Record world : Type := mk_world {
  session : session_state;
  llm_journal : list call;
  fs_journal : list fs_event;
  screen : list notice
}.

(** The values the widgets return in this run of the script. *)
Record form : Type := mk_form {
  product : string;
  industry : string;
  tone : string;
  length : string;
  brand_voice : string;
  target_audience : string;
  usp_count : nat;
  usp_input : nat -> string;
  checked : string -> bool;
  custom_section : string;
  clicked : bool
}.

(** The truth value of a [str]. *)
Definition nonempty (s : string) : bool :=
  match s with
  | EmptyString => false
  | String _ _ => true
  end.

(** [s.replace(' ', '_')] *)
Fixpoint replace_spaces (s : string) : string :=
  match s with
  | EmptyString => EmptyString
  | String c rest =>
      String (if Ascii.eqb c " "%char then "_"%char else c) (replace_spaces rest)
  end.

Definition standard_sections : list string :=
  ["Homepage"; "About"; "Services"; "Contact"].

Section Streamlit.

(** [str.lower], [json.dumps(_, indent=2)] and [str(Path(dir) / name)]:
    functions of the interpreter and its library. *)
Variable lower : string -> string.
Variable dumps : dict -> string.
Variable path_join : string -> string -> string.

Variable lib : library.
Variable llm : client.
Variable system : os.

(** The loop over [range(usp_count)]: the inputs that are not empty. *)
Definition usps (f : form) : list string :=
  filter nonempty (map (usp_input f) (seq 0 (usp_count f))).

(** The loop over [standard_sections.items()], then the custom section. *)
Definition sections (f : form) : list string :=
  (map lower (filter (checked f) standard_sections)
   ++ (if nonempty (custom_section f) then [lower (custom_section f)] else []))%list.

Definition perform (op : fs_op) (w : world) : option exn * world :=
  let r := system (fs_journal w) op in
  (r, mk_world (session w) (llm_journal w)
        (fs_journal w ++ [mk_fs_event op r])%list (screen w)).

Definition save_results (results : dict) (filename : string) (w : world)
    : option exn * world :=
  match perform (Mkdir "generated_copy") w with
  | (Some e, w1) => (Some e, w1)
  | (None, w1) =>
      perform (WriteText (path_join "generated_copy" filename) (dumps results)) w1
  end.

Definition notify (n : notice) (w : world) : world :=
  mk_world (session w) (llm_journal w) (fs_journal w) (screen w ++ [n])%list.

Definition store (k : string) (v : value) (w : world) : world :=
  mk_world (state_set k v (session w)) (llm_journal w) (fs_journal w) (screen w).

(** The request the block builds from the widgets. *)
Definition input_data (f : form) : CopyInput :=
  new_CopyInput (product f) (lower (tone f)) (lower (length f)) (industry f)
    (target_audience f) (brand_voice f) (Some (usps f)).

(** The block under [if st.button("Generate Copy", ...)]. *)
Definition generate_clicked (f : form) (w : world) : world :=
  if negb (nonempty (product f)) || negb (nonempty (target_audience f)) then
    notify (Error "Please fill in all required fields marked with *") w
  else
    match generate_website_copy lib llm (sections f)
            (mk_heap (input_data f) (llm_journal w)) with
    | (inl e, h) =>
        notify (Error ("Error generating copy: " ++ str e))
          (mk_world (session w) (journal h) (fs_journal w) (screen w))
    | (inr results, h) =>
        let w1 := mk_world (session w) (journal h) (fs_journal w) (screen w) in
        let w2 := store "generated_copy" (Copy results) w1 in
        let w3 := store "generation_complete" (Flag true) w2 in
        match save_results results
                (replace_spaces (lower (product f)) ++ "_copy.json") w3 with
        | (Some e, w4) =>
            notify (Error ("Error generating copy: " ++ str e)) w4
        | (None, w4) =>
            notify (Success "✅ Copy generated successfully!") w4
        end
    end.

(** [main], up to the display of the results. *)
Definition main (f : form) (w : world) : world :=
  let w0 := mk_world (init_session_state (session w)) (llm_journal w)
              (fs_journal w) (screen w) in
  if clicked f then generate_clicked f w0 else w0.

End Streamlit.

End Frontend.

(** ** Further vocabulary *)

Module More.

(** A tone written for the template reader: every brace doubled. *)
Fixpoint escape_braces (s : string) : string :=
  match s with
  | EmptyString => EmptyString
  | String c rest =>
      if is_brace c then String c (String c (escape_braces rest))
      else String c (escape_braces rest)
  end.

(** A field name the model reads as a plain key: no brace, no character of
    an extended field, and not a position. *)
Fixpoint field_chars (s : string) : bool :=
  match s with
  | EmptyString => true
  | String c rest => negb (is_brace c) && negb (is_extension c) && field_chars rest
  end.

Definition plain_name (name : string) : bool :=
  field_chars name && negb (is_positional name).

End More.

Import More.

(** ** Sample inputs of the front end *)

Module FrontendSample.

(** Lower case for the letters [A] to [Z]. *)
Definition lower_char (c : ascii) : ascii :=
  let n := nat_of_ascii c in
  if ((65 <=? n) && (n <=? 90))%nat then ascii_of_nat (n + 32) else c.

Fixpoint lower (s : string) : string :=
  match s with
  | EmptyString => EmptyString
  | String c rest => String (lower_char c) (lower rest)
  end.

(** A stand-in for the JSON text: the keys, one on each line. *)
Definition dumps (d : dict) : string := join Script.newline (keys d).

Definition path_join (dir name : string) : string := dir ++ "/" ++ name.

(** A file system on which everything works, and one that is full. *)
Definition works : Frontend.os := fun _ _ => None.

Definition disk_full : Frontend.os :=
  fun _ op =>
    match op with
    | Frontend.Mkdir _ => None
    | Frontend.WriteText _ _ => Some (mk_exn "OSError" "No space left on device")
    end.

(** A filled form, with the second selling point left empty. *)
Definition filled : Frontend.form :=
  Frontend.mk_form "Food Delivery" "food delivery" "Professional" "Medium"
    "friendly and reliable" "young urban professionals" 3
    (fun i => nth i ["30-minute delivery"; EmptyString; "local restaurants"]
                EmptyString)
    (fun _ => true) "Pricing" true.

(** The same form without a product. *)
Definition no_product : Frontend.form :=
  Frontend.mk_form EmptyString "food delivery" "Professional" "Medium"
    "friendly and reliable" "young urban professionals" 3
    (fun i => nth i ["30-minute delivery"; EmptyString; "local restaurants"]
                EmptyString)
    (fun _ => true) "Pricing" true.

(** The first run of a session. *)
Definition start : Frontend.world := Frontend.mk_world [] [] [] [].

(** The pipeline as the filled form starts it, with a given client. *)
Definition run_filled (llm : client) : (exn + dict) * heap :=
  generate_website_copy Sample.lib llm (Frontend.sections lower filled)
    (mk_heap (Frontend.input_data lower filled) []).

Definition results_filled : dict :=
  [("homepage", "copy"); ("about", "copy"); ("services", "copy");
   ("contact", "copy"); ("pricing", "copy")].

(** A later run: results of an earlier click are in the session. *)
Definition later : Frontend.world :=
  Frontend.mk_world
    [("usp_0", Frontend.Text "30-minute delivery");
     ("generated_copy", Frontend.Copy [("homepage", "old copy")]);
     ("generation_complete", Frontend.Flag true)]
    [] [] [].

End FrontendSample.

(** * Properties *)

(** ** Strings, [join] and dictionaries *)

Section PyFacts.

Lemma append_assoc (a b c : string) : (a ++ b) ++ c = a ++ (b ++ c).
Proof.
  induction a as [|x a IH]; simpl; [reflexivity | now rewrite IH].
Qed.

Lemma join_onto_concat (sep : string) (items : list string) :
  forall acc,
    join_onto sep acc items =
    match items with
    | [] => acc
    | _ :: _ => acc ++ sep ++ String.concat sep items
    end.
Proof.
  induction items as [|x rest IH]; intro acc; [reflexivity|].
  cbn [join_onto]. rewrite IH.
  destruct rest as [|y rest']; cbn [String.concat]; [reflexivity|].
  now rewrite !append_assoc.
Qed.

Lemma join_concat (sep : string) (items : list string) :
  join sep items = String.concat sep items.
Proof.
  destruct items as [|x rest]; [reflexivity|].
  unfold join. rewrite join_onto_concat.
  destruct rest; reflexivity.
Qed.

Lemma keys_dict_set (k v : string) (d : dict) :
  keys (dict_set k v d) =
  if existsb (String.eqb k) (keys d) then keys d else (keys d ++ [k])%list.
Proof.
  induction d as [|[k' v'] d IH]; [reflexivity|].
  cbn [dict_set keys map fst existsb].
  rewrite (String.eqb_sym k k').
  destruct (String.eqb k' k) eqn:E; cbn [map fst orb]; [reflexivity|].
  fold (keys (dict_set k v d)). fold (keys d). rewrite IH.
  destruct (existsb (String.eqb k) (keys d)); reflexivity.
Qed.

Lemma dict_get_set_same (k v : string) (d : dict) :
  dict_get k (dict_set k v d) = Some v.
Proof.
  induction d as [|[k' v'] d IH]; cbn [dict_set dict_get].
  - now rewrite String.eqb_refl.
  - destruct (String.eqb k' k) eqn:E; cbn [dict_get]; rewrite E; auto.
Qed.

Lemma dict_get_set_other (k k0 v : string) (d : dict) :
  k0 <> k -> dict_get k (dict_set k0 v d) = dict_get k d.
Proof.
  intro N. induction d as [|[k' v'] d IH]; cbn [dict_set dict_get].
  - apply String.eqb_neq in N. now rewrite N.
  - destruct (String.eqb k' k0) eqn:E; cbn [dict_get].
    + apply String.eqb_eq in E. subst k'.
      apply String.eqb_neq in N. now rewrite N.
    + now rewrite IH.
Qed.

End PyFacts.

(** ** Templates *)

Section TemplateFacts.

Lemma no_braces_app (a b : string) :
  no_braces (a ++ b) = no_braces a && no_braces b.
Proof.
  induction a as [|c a IH]; simpl; [reflexivity|].
  now rewrite IH, andb_assoc.
Qed.

Lemma scan_no_braces (s : string) :
  no_braces s = true ->
  forall done, scan done None s = Parsed (rev done ++ lits s)%list.
Proof.
  induction s as [|c s IH]; intros H done.
  - cbn [scan lits]. now rewrite app_nil_r.
  - cbn [no_braces] in H. apply andb_true_iff in H. destruct H as [Hc Hs].
    unfold is_brace in Hc. apply negb_true_iff, orb_false_iff in Hc.
    destruct Hc as [Hl Hr].
    cbn [scan lits]. rewrite Hl, Hr, (IH Hs). cbn [rev].
    now rewrite <- app_assoc.
Qed.

(** A text without braces is read as literal text. *)
Lemma parse_no_braces (s : string) :
  no_braces s = true -> parse s = Parsed (lits s).
Proof. intro H. unfold parse. now rewrite scan_no_braces. Qed.

Lemma variables_lits (s : string) : variables (lits s) = [].
Proof. induction s; simpl; auto. Qed.

Lemma variables_app (a b : list segment) :
  variables (a ++ b) = (variables a ++ variables b)%list.
Proof.
  induction a as [|[c|n] a IH]; simpl; auto. now rewrite IH.
Qed.

Lemma missing_lits (s : string) (segs : list segment) (kw : kwargs) :
  missing (lits s ++ segs) kw = missing segs kw.
Proof.
  unfold missing. now rewrite variables_app, variables_lits.
Qed.

Lemma render_app (a b : list segment) (kw : kwargs) :
  render (a ++ b) kw = render a kw ++ render b kw.
Proof.
  induction a as [|[c|n] a IH]; simpl; auto.
  - now rewrite IH.
  - destruct (lookup n kw); auto. now rewrite IH, append_assoc.
Qed.

Lemma render_lits (s : string) (kw : kwargs) : render (lits s) kw = s.
Proof. induction s as [|c s IH]; simpl; [reflexivity | now rewrite IH]. Qed.

Lemma missing_app (a b : list segment) (kw : kwargs) :
  missing (a ++ b) kw = (missing a kw ++ missing b kw)%list.
Proof. unfold missing. now rewrite variables_app, filter_app. Qed.

Lemma from_messages_parsed (lib : library) (s h : string)
    (ss hs : list segment) :
  parse s = Parsed ss -> parse h = Parsed hs ->
  from_messages lib s h = inr (Plain ss hs).
Proof. intros Ps Ph. unfold from_messages. now rewrite Ps, Ph. Qed.

Lemma from_messages_invalid (lib : library) (s h : string) (e : exn) :
  parse s = Invalid e -> from_messages lib s h = inl e.
Proof. intro Ps. unfold from_messages. now rewrite Ps. Qed.

Lemma invoke_plain (lib : library) (ss hs : list segment) (kw : kwargs) :
  missing hs kw = [] ->
  invoke lib (Plain ss hs) kw =
  match missing ss kw with
  | [] => inr [(system, render ss kw); (human, render hs kw)]
  | name :: names => inl (missing_variables lib (name :: names))
  end.
Proof.
  intro Mh. unfold invoke. rewrite missing_app, Mh, app_nil_r.
  destruct (missing ss kw); reflexivity.
Qed.

End TemplateFacts.

(** ** The agents *)

Section AgentFacts.

Variable lib : library.

Lemma research_request_value (ci : CopyInput) :
  research_request lib ci = inr (research_value ci).
Proof.
  unfold research_request, from_messages.
  read_template research_system. read_template research_human.
  cbv iota beta. vm_compute. reflexivity.
Qed.

Lemma editor_request_value (copy : string) :
  editor_request lib copy = inr (editor_value copy).
Proof.
  unfold editor_request, from_messages.
  read_template editor_system. read_template editor_human.
  cbv iota beta. vm_compute. reflexivity.
Qed.

Lemma copywriting_request_value (strategy section : string) (ci : CopyInput)
    (usps : list string) :
  unique_selling_points ci = Some usps ->
  copywriting_request lib strategy section ci =
  inr (copywriting_value strategy section ci (join ", " usps)).
Proof.
  intro U. unfold copywriting_request, from_messages, joined_usps.
  read_template copywriting_system. read_template copywriting_human.
  cbv iota beta. rewrite U. generalize (join ", " usps). intro j.
  vm_compute. reflexivity.
Qed.

Lemma copywriting_request_none (strategy section : string) (ci : CopyInput) :
  unique_selling_points ci = None ->
  copywriting_request lib strategy section ci =
  inl (TypeError "can only join an iterable").
Proof.
  intro U. unfold copywriting_request, from_messages, joined_usps.
  read_template copywriting_system. read_template copywriting_human.
  cbv iota beta. now rewrite U.
Qed.

Lemma parse_strategy_human :
  parse strategy_human = Parsed (segments strategy_human).
Proof. vm_compute. reflexivity. Qed.

Lemma missing_strategy_human (research_data : string) (ci : CopyInput) (j : string) :
  missing (segments strategy_human) (strategy_kwargs research_data ci j) = [].
Proof. vm_compute. reflexivity. Qed.

Lemma render_strategy_human (research_data : string) (ci : CopyInput) (j : string) :
  render (segments strategy_human) (strategy_kwargs research_data ci j) =
  strategy_text research_data ci j.
Proof. vm_compute. reflexivity. Qed.

(** The strategy agent, when the system template stays within plain
    fields: the human message is the written-out text, the system message
    the rendered template. *)
Lemma strategy_request_parsed (research_data : string) (ci : CopyInput)
    (usps : list string) (ss : list segment) :
  unique_selling_points ci = Some usps ->
  parse (strategy_system (tone ci)) = Parsed ss ->
  strategy_request lib research_data ci =
  match missing ss (strategy_kwargs research_data ci (join ", " usps)) with
  | [] =>
      inr [(system, render ss (strategy_kwargs research_data ci (join ", " usps)));
           (human, strategy_text research_data ci (join ", " usps))]
  | name :: names => inl (missing_variables lib (name :: names))
  end.
Proof.
  intros U P. unfold strategy_request.
  rewrite (@from_messages_parsed lib _ _ _ _ P parse_strategy_human).
  unfold joined_usps. rewrite U.
  rewrite invoke_plain by apply missing_strategy_human.
  now rewrite render_strategy_human.
Qed.

Lemma no_braces_strategy_system (t : string) :
  no_braces (strategy_system t) = no_braces t.
Proof.
  unfold strategy_system. rewrite !no_braces_app.
  change (no_braces "You are a content strategist specializing in ") with true.
  change (no_braces " copy.") with true.
  now rewrite andb_true_r.
Qed.

(** A tone without braces: the strategy prompt is built, and it is the
    written-out text. *)
Lemma strategy_request_value (research_data : string) (ci : CopyInput)
    (usps : list string) :
  unique_selling_points ci = Some usps ->
  no_braces (tone ci) = true ->
  strategy_request lib research_data ci =
  inr (strategy_value research_data ci (join ", " usps)).
Proof.
  intros U B.
  rewrite (@strategy_request_parsed research_data ci usps
             (lits (strategy_system (tone ci))) U).
  - unfold missing. rewrite variables_lits. cbn [filter].
    now rewrite render_lits.
  - apply parse_no_braces. now rewrite no_braces_strategy_system.
Qed.

(** A template that cannot be read stops the strategy agent, whatever the
    other fields are. *)
Lemma strategy_request_invalid (research_data : string) (ci : CopyInput) (e : exn) :
  parse (strategy_system (tone ci)) = Invalid e ->
  strategy_request lib research_data ci = inl e.
Proof.
  intro P. unfold strategy_request.
  now rewrite (@from_messages_invalid lib _ strategy_human _ P).
Qed.

Variable llm : client.

(** Each agent builds its prompt value and then makes one call. *)
Lemma analyze_target_audience_eq (h : heap) :
  analyze_target_audience lib llm h =
  llm_invoke llm ResearchAgent (research_value (copy_input h)) h.
Proof.
  pose proof (research_request_value (copy_input h)) as R.
  unfold research_request in R.
  unfold analyze_target_audience, bind, lift, read_copy_input.
  destruct (from_messages lib research_system research_human) as [e|p];
    [discriminate|].
  now rewrite R.
Qed.

Lemma create_content_strategy_eq (research_data : string) (h : heap) :
  create_content_strategy lib llm research_data h =
  match strategy_request lib research_data (copy_input h) with
  | inl e => (inl e, h)
  | inr value => llm_invoke llm StrategyAgent value h
  end.
Proof.
  unfold create_content_strategy, strategy_request, bind, lift, read_copy_input.
  destruct (from_messages lib (strategy_system (tone (copy_input h))) strategy_human)
    as [e|p]; [reflexivity|].
  destruct (joined_usps (copy_input h)) as [e|u]; [reflexivity|].
  destruct (invoke lib p _); reflexivity.
Qed.

Lemma write_website_copy_eq (strategy section : string) (h : heap) :
  write_website_copy lib llm strategy section h =
  match copywriting_request lib strategy section (copy_input h) with
  | inl e => (inl e, h)
  | inr value => llm_invoke llm CopywritingAgent value h
  end.
Proof.
  unfold write_website_copy, copywriting_request, bind, lift, read_copy_input.
  destruct (from_messages lib copywriting_system copywriting_human)
    as [e|p]; [reflexivity|].
  destruct (joined_usps (copy_input h)) as [e|u]; [reflexivity|].
  destruct (invoke lib p _); reflexivity.
Qed.

Lemma review_copy_eq (copy : string) (h : heap) :
  review_copy lib llm copy h = llm_invoke llm EditorAgent (editor_value copy) h.
Proof.
  pose proof (editor_request_value copy) as R.
  unfold editor_request in R.
  unfold review_copy, bind, lift.
  destruct (from_messages lib editor_system editor_human) as [e|p];
    [discriminate|].
  now rewrite R.
Qed.

End AgentFacts.

(** ** The result dictionary *)

Section DictFacts.

Lemma filter_filter {A : Type} (f g : A -> bool) (l : list A) :
  filter f (filter g l) = filter (fun x => g x && f x) l.
Proof.
  induction l as [|x l IH]; [reflexivity|]. cbn [filter].
  destruct (g x); cbn [filter andb]; [destruct (f x)|]; now rewrite IH.
Qed.

Lemma existsb_eqb_In (y : string) (ks : list string) :
  existsb (String.eqb y) ks = true <-> In y ks.
Proof.
  rewrite existsb_exists. split.
  - intros [x [I E]]. apply String.eqb_eq in E. now subst.
  - intro I. exists y. split; [assumption | apply String.eqb_refl].
Qed.

Lemma keys_stored (done : list written) :
  forall d : dict,
    keys (stored done d) =
    (keys d ++ filter (absent (keys d)) (first_occurrences (map section_of done)))%list.
Proof.
  induction done as [|w done IH]; intro d.
  - cbn. now rewrite app_nil_r.
  - cbn [stored fold_left map first_occurrences].
    fold (stored done (dict_set (section_of w) (final_of w) d)).
    rewrite IH, keys_dict_set. cbn [filter]. unfold absent at 2.
    destruct (existsb (String.eqb (section_of w)) (keys d)) eqn:E; cbn [negb].
    + f_equal. rewrite filter_filter. apply filter_ext_in. intros y _.
      destruct (String.eqb (section_of w) y) eqn:Ey; cbn [negb andb]; [|reflexivity].
      apply String.eqb_eq in Ey. subst y. unfold absent. now rewrite E.
    + rewrite <- app_assoc. cbn [app]. do 2 f_equal.
      rewrite filter_filter. apply filter_ext. intro y.
      unfold absent. rewrite existsb_app. cbn [existsb].
      rewrite orb_false_r, negb_orb, (String.eqb_sym y), andb_comm.
      reflexivity.
Qed.

Lemma first_occurrences_In (names : list string) (y : string) :
  In y (first_occurrences names) <-> In y names.
Proof.
  induction names as [|x names IH]; [reflexivity|].
  cbn [first_occurrences In]. rewrite filter_In, IH.
  destruct (String.eqb x y) eqn:E.
  - apply String.eqb_eq in E. subst. cbn. tauto.
  - apply String.eqb_neq in E. cbn. tauto.
Qed.

Lemma NoDup_filter {A : Type} (f : A -> bool) (l : list A) :
  NoDup l -> NoDup (filter f l).
Proof.
  induction 1 as [|x l N _ IH]; cbn [filter]; [constructor|].
  destruct (f x); [|assumption].
  constructor; [|assumption]. rewrite filter_In. tauto.
Qed.

Lemma NoDup_first_occurrences (names : list string) :
  NoDup (first_occurrences names).
Proof.
  induction names as [|x names IH]; cbn [first_occurrences]; constructor.
  - rewrite filter_In. intros [_ E]. now rewrite String.eqb_refl in E.
  - now apply NoDup_filter.
Qed.

Lemma keys_stored_empty (done : list written) :
  keys (stored done []) = first_occurrences (map section_of done).
Proof.
  rewrite keys_stored. cbn [keys map app].
  rewrite <- (filter_ext (fun _ => true)); [|reflexivity].
  induction (first_occurrences (map section_of done)) as [|x l IH];
    cbn [filter]; [reflexivity | now rewrite IH].
Qed.

Lemma dict_get_stored_other (done : list written) (k : string) :
  (forall w, In w done -> section_of w <> k) ->
  forall d : dict, dict_get k (stored done d) = dict_get k d.
Proof.
  induction done as [|w done IH]; intros N d; [reflexivity|].
  cbn [stored fold_left].
  fold (stored done (dict_set (section_of w) (final_of w) d)).
  rewrite IH by (intros w' I; apply N; now right).
  apply dict_get_set_other. apply N. now left.
Qed.

(** The last write under a name is the value that stays. *)
Lemma dict_get_stored_last (done : list written) :
  forall (i : nat) (w : written) (d : dict),
    nth_error done i = Some w ->
    (forall j w', i < j -> nth_error done j = Some w' ->
                  section_of w' <> section_of w) ->
    dict_get (section_of w) (stored done d) = Some (final_of w).
Proof.
  induction done as [|w0 done IH]; intros i w d Hi Hlast.
  - destruct i; discriminate.
  - cbn [stored fold_left].
    fold (stored done (dict_set (section_of w0) (final_of w0) d)).
    destruct i as [|i]; cbn [nth_error] in Hi.
    + injection Hi as ->.
      rewrite dict_get_stored_other; [apply dict_get_set_same|].
      intros w' I. apply In_nth_error in I. destruct I as [j Hj].
      apply (Hlast (S j)); [lia | exact Hj].
    + apply (IH i); [assumption|].
      intros j w' Lt Hj. apply (Hlast (S j)); [lia | exact Hj].
Qed.

Lemma nth_error_section_calls (ci : CopyInput) (usps strategy : string)
    (done : list written) :
  forall (i : nat) (w : written),
    nth_error done i = Some w ->
    nth_error (section_calls ci usps strategy done) (2 * i) =
      Some (mk_call CopywritingAgent
              (copywriting_value strategy (section_of w) ci usps)
              (inr (draft_of w))) /\
    nth_error (section_calls ci usps strategy done) (2 * i + 1) =
      Some (mk_call EditorAgent (editor_value (draft_of w)) (inr (final_of w))).
Proof.
  induction done as [|w0 done IH]; intros i w Hi.
  - destruct i; discriminate.
  - destruct i as [|i]; cbn [nth_error] in Hi.
    + injection Hi as ->. split; reflexivity.
    + replace (2 * S i) with (S (S (2 * i))) by lia.
      replace (S (S (2 * i)) + 1) with (S (S (2 * i + 1))) by lia.
      cbn [section_calls nth_error]. now apply IH.
Qed.

Lemma length_section_calls (ci : CopyInput) (usps strategy : string)
    (done : list written) :
  List.length (section_calls ci usps strategy done) = 2 * List.length done.
Proof.
  induction done as [|w done IH]; [reflexivity|].
  cbn [section_calls List.length]. rewrite IH. lia.
Qed.

End DictFacts.

(** ** Runs *)

Section RunFacts.

Variable lib : library.
Variable llm : client.

Lemma generate_website_copy_eq (sections : list string) (h : heap) :
  generate_website_copy lib llm sections h =
  match attempt lib llm sections h with
  | (inl e, h') => (inl (wrapped e), h')
  | (inr d, h') => (inr d, h')
  end.
Proof. reflexivity. Qed.

Lemma for_sections_cons (strategy section : string) (rest : list string)
    (d : dict) (h : heap) :
  for_sections lib llm strategy (section :: rest) d h =
  match write_website_copy lib llm strategy section h with
  | (inl e, h1) => (inl e, h1)
  | (inr initial_copy, h1) =>
      match review_copy lib llm initial_copy h1 with
      | (inl e, h2) => (inl e, h2)
      | (inr final_copy, h2) =>
          for_sections lib llm strategy rest
            (dict_set section final_copy d) h2
      end
  end.
Proof. reflexivity. Qed.

Lemma attempt_eq (sections : list string) (h : heap) :
  attempt lib llm sections h =
  match analyze_target_audience lib llm h with
  | (inl e, h1) => (inl e, h1)
  | (inr research, h1) =>
      match create_content_strategy lib llm research h1 with
      | (inl e, h2) => (inl e, h2)
      | (inr strategy, h2) => for_sections lib llm strategy sections [] h2
      end
  end.
Proof. reflexivity. Qed.

(** *** Orderly computations *)

Lemma orderly_weaken {A : Type} (P Q : agent -> Prop) (m : M A) :
  (forall a, P a -> Q a) -> orderly P m -> orderly Q m.
Proof.
  intros PQ O h. destruct (O h) as [new [F [T W]]].
  exists new. repeat split; try assumption.
  eapply Forall_impl; [|exact W]. intros c; apply PQ.
Qed.

Lemma orderly_ret {A : Type} (P : agent -> Prop) (a : A) : orderly P (ret a).
Proof.
  intro h. exists []. destruct h as [ci j]. cbn.
  rewrite app_nil_r. repeat split; constructor.
Qed.

Lemma orderly_lift {A : Type} (P : agent -> Prop) (r : exn + A) :
  orderly P (lift r).
Proof.
  intro h. exists []. destruct h as [ci j]. cbn.
  rewrite app_nil_r. repeat split; [|constructor].
  destruct r; cbn; [left|]; constructor.
Qed.

Lemma orderly_llm_invoke (P : agent -> Prop) (who : agent) (value : prompt_value) :
  P who -> orderly P (llm_invoke llm who value).
Proof.
  intros Pw h. exists [mk_call who value (llm (journal h) value)].
  unfold final, outcome, llm_invoke. cbn [fst snd].
  repeat split.
  - destruct (llm (journal h) value) as [e|text] eqn:E; cbn.
    + right. exists [], (mk_call who value (inl e)).
      repeat split. constructor.
    + repeat constructor. now exists text.
  - repeat constructor. exact Pw.
Qed.

Lemma orderly_bind {A B : Type} (P : agent -> Prop) (m : M A) (k : A -> M B) :
  orderly P m -> (forall a, orderly P (k a)) -> orderly P (bind m k).
Proof.
  intros Om Ok h. destruct (Om h) as [new1 [F1 [T1 W1]]].
  unfold final, outcome, bind in *.
  destruct (m h) as [[e|a] h1]; cbn [fst snd] in *.
  - exists new1. repeat split; assumption.
  - destruct (Ok a h1) as [new2 [F2 [T2 W2]]].
    unfold final, outcome in *. subst h1. cbn [copy_input journal] in *.
    exists (new1 ++ new2)%list. rewrite app_assoc. repeat split.
    + exact F2.
    + cbn [tidy] in T1.
      destruct (fst (k a _)) as [e|b]; cbn [tidy] in *.
      * destruct T2 as [T2 | [before [c [E [Fb R]]]]].
        -- left. now apply Forall_app.
        -- right. exists (new1 ++ before)%list, c. subst new2.
           rewrite app_assoc. repeat split; [|assumption].
           now apply Forall_app.
      * now apply Forall_app.
    + now apply Forall_app.
Qed.

Lemma analyze_target_audience_shape :
  agent_shape llm ResearchAgent (fun ci => inr (research_value ci))
    (analyze_target_audience lib llm).
Proof. intro h. apply analyze_target_audience_eq. Qed.

Lemma create_content_strategy_shape (research_data : string) :
  agent_shape llm StrategyAgent (strategy_request lib research_data)
    (create_content_strategy lib llm research_data).
Proof. intro h. apply create_content_strategy_eq. Qed.

Lemma write_website_copy_shape (strategy section : string) :
  agent_shape llm CopywritingAgent (copywriting_request lib strategy section)
    (write_website_copy lib llm strategy section).
Proof. intro h. apply write_website_copy_eq. Qed.

Lemma review_copy_shape (copy : string) :
  agent_shape llm EditorAgent (fun _ => inr (editor_value copy))
    (review_copy lib llm copy).
Proof. intro h. apply review_copy_eq. Qed.

Lemma orderly_agent (P : agent -> Prop) (who : agent)
    (request : CopyInput -> exn + prompt_value) (m : M string) :
  agent_shape llm who request m -> P who -> orderly P m.
Proof.
  intros S Pw h. unfold final, outcome. rewrite (S h).
  destruct (request (copy_input h)) as [e|value].
  - apply (orderly_lift P (inl e : exn + string) h).
  - apply (orderly_llm_invoke P who value Pw h).
Qed.

Lemma orderly_for_sections (strategy : string) (sections : list string) :
  forall d : dict, orderly drafting (for_sections lib llm strategy sections d).
Proof.
  induction sections as [|section rest IH]; intro d.
  - apply orderly_ret.
  - cbn [for_sections]. apply orderly_bind.
    + eapply orderly_agent; [apply write_website_copy_shape | now left].
    + intro initial_copy. apply orderly_bind.
      * eapply orderly_agent; [apply review_copy_shape | now right].
      * intro final_copy. apply IH.
Qed.

Lemma orderly_attempt (sections : list string) :
  orderly (fun _ => True) (attempt lib llm sections).
Proof.
  unfold attempt. apply orderly_bind.
  - eapply orderly_agent; [apply analyze_target_audience_shape | exact I].
  - intro research. apply orderly_bind.
    + eapply orderly_agent; [apply create_content_strategy_shape | exact I].
    + intro strategy. eapply orderly_weaken; [|apply orderly_for_sections].
      intros; exact I.
Qed.

(** *** Runs on two journals *)

Lemma insensitive_ret {A : Type} (a : A) : insensitive (ret a).
Proof.
  intros ci j1 j2. exists (inr a), []. cbn. now rewrite !app_nil_r.
Qed.

Lemma insensitive_bind {A B : Type} (m : M A) (k : A -> M B) :
  insensitive m -> (forall a, insensitive (k a)) -> insensitive (bind m k).
Proof.
  intros Im Ik ci j1 j2. destruct (Im ci j1 j2) as [r [new [E1 E2]]].
  unfold bind. rewrite E1, E2. destruct r as [e|a].
  - exists (inl e), new. split; reflexivity.
  - destruct (Ik a ci (j1 ++ new)%list (j2 ++ new)%list) as [r' [new' [E1' E2']]].
    exists r', (new ++ new')%list. rewrite E1', E2', !app_assoc.
    split; reflexivity.
Qed.

Lemma insensitive_agent (who : agent)
    (request : CopyInput -> exn + prompt_value) (m : M string) :
  stateless llm -> agent_shape llm who request m -> insensitive m.
Proof.
  intros St S ci j1 j2. rewrite !S. cbn [copy_input].
  destruct (request ci) as [e|value].
  - exists (inl e), []. now rewrite !app_nil_r.
  - exists (llm j1 value), [mk_call who value (llm j1 value)].
    unfold llm_invoke. cbn [journal copy_input].
    rewrite (St j2 j1 value). split; reflexivity.
Qed.

Lemma insensitive_for_sections (strategy : string) (sections : list string) :
  stateless llm ->
  forall d : dict, insensitive (for_sections lib llm strategy sections d).
Proof.
  intro St. induction sections as [|section rest IH]; intro d.
  - apply insensitive_ret.
  - cbn [for_sections]. apply insensitive_bind.
    + eapply insensitive_agent; [exact St | apply write_website_copy_shape].
    + intro initial_copy. apply insensitive_bind.
      * eapply insensitive_agent; [exact St | apply review_copy_shape].
      * intro final_copy. apply IH.
Qed.

Lemma insensitive_attempt (sections : list string) :
  stateless llm -> insensitive (attempt lib llm sections).
Proof.
  intro St. unfold attempt. apply insensitive_bind.
  - eapply insensitive_agent; [exact St | apply analyze_target_audience_shape].
  - intro research. apply insensitive_bind.
    + eapply insensitive_agent; [exact St | apply create_content_strategy_shape].
    + intro strategy. now apply insensitive_for_sections.
Qed.

(** *** Runs that return *)

Lemma llm_invoke_returns (who : agent) (value : prompt_value) (h h' : heap)
    (text : string) :
  llm_invoke llm who value h = (inr text, h') ->
  llm (journal h) value = inr text /\
  h' = mk_heap (copy_input h) (journal h ++ [mk_call who value (inr text)]).
Proof.
  unfold llm_invoke. intro E. injection E as E1 E2.
  split; [assumption|]. now rewrite E1 in E2.
Qed.

Lemma strategy_request_usps (research_data : string) (ci : CopyInput)
    (value : prompt_value) :
  strategy_request lib research_data ci = inr value ->
  exists usps, unique_selling_points ci = Some usps.
Proof.
  unfold strategy_request, joined_usps.
  destruct (from_messages lib (strategy_system (tone ci)) strategy_human);
    [discriminate|].
  destruct (unique_selling_points ci) as [usps|]; [eauto | discriminate].
Qed.

Lemma for_sections_returns (strategy : string) (usps : list string)
    (sections : list string) :
  forall (d d' : dict) (h h' : heap),
    unique_selling_points (copy_input h) = Some usps ->
    for_sections lib llm strategy sections d h = (inr d', h') ->
    exists done : list written,
      map section_of done = sections /\
      h' = mk_heap (copy_input h)
             (journal h ++
              section_calls (copy_input h) (join ", " usps) strategy done) /\
      d' = stored done d.
Proof.
  induction sections as [|section rest IH]; intros d d' h h' U R.
  - cbn in R. injection R as <- <-. exists []. cbn.
    rewrite app_nil_r. destruct h; auto.
  - rewrite for_sections_cons, write_website_copy_eq,
      (copywriting_request_value lib strategy section _ usps U) in R.
    destruct (llm_invoke llm CopywritingAgent _ h) as [[e|draft] h1] eqn:E1;
      [discriminate|].
    apply llm_invoke_returns in E1. destruct E1 as [_ ->].
    rewrite review_copy_eq in R.
    destruct (llm_invoke llm EditorAgent _ _) as [[e|final_copy] h2] eqn:E2;
      [discriminate|].
    apply llm_invoke_returns in E2. destruct E2 as [_ ->].
    apply IH in R; [|exact U].
    destruct R as [done [Hs [Hh Hd]]]. cbn [copy_input journal] in Hh.
    exists (mk_written section draft final_copy :: done).
    cbn [map section_of section_calls draft_of final_of stored fold_left].
    repeat split.
    + now rewrite Hs.
    + rewrite Hh, <- !app_assoc. reflexivity.
    + exact Hd.
Qed.

(** A run that returns: the research call, the strategy call, then a
    draft call and an edit call for each section in turn; the result
    stores the edited copies in that order. *)
Lemma generate_returns (sections : list string) (h h' : heap) (d : dict) :
  generate_website_copy lib llm sections h = (inr d, h') ->
  exists (research strategy : string) (value : prompt_value)
         (usps : list string) (done : list written),
    unique_selling_points (copy_input h) = Some usps /\
    strategy_request lib research (copy_input h) = inr value /\
    map section_of done = sections /\
    h' = mk_heap (copy_input h)
           (journal h ++
            mk_call ResearchAgent (research_value (copy_input h)) (inr research)
            :: mk_call StrategyAgent value (inr strategy)
            :: section_calls (copy_input h) (join ", " usps) strategy done) /\
    d = stored done [].
Proof.
  rewrite generate_website_copy_eq, attempt_eq, analyze_target_audience_eq.
  intro R.
  destruct (llm_invoke llm ResearchAgent _ h) as [[e|research] h1] eqn:E1;
    [discriminate|].
  apply llm_invoke_returns in E1. destruct E1 as [_ ->].
  rewrite create_content_strategy_eq in R. cbn [copy_input] in R.
  destruct (strategy_request lib research (copy_input h)) as [e|value] eqn:Q;
    [discriminate|].
  destruct (llm_invoke llm StrategyAgent _ _) as [[e|strategy] h2] eqn:E2;
    [discriminate|].
  apply llm_invoke_returns in E2. destruct E2 as [_ ->].
  destruct (strategy_request_usps _ _ _ Q) as [usps U].
  destruct (for_sections lib llm strategy sections [] _) as [[e|d0] h3] eqn:E3;
    [discriminate|].
  injection R as -> ->.
  apply (for_sections_returns strategy usps sections) in E3; [|exact U].
  destruct E3 as [done [Hs [Hh Hd]]]. cbn [copy_input journal] in Hh.
  exists research, strategy, value, usps, done.
  repeat split; try assumption.
  rewrite Hh, <- !app_assoc. reflexivity.
Qed.

(** *** Runs in general *)

Lemma skipn_length_app {A : Type} (l new : list A) :
  skipn (List.length l) (l ++ new) = new.
Proof. induction l as [|x l IH]; [reflexivity | exact IH]. Qed.

Lemma new_calls_of {A : Type} (m : M A) (h : heap) (new : list call) :
  final m h = mk_heap (copy_input h) (journal h ++ new) ->
  new_calls m h = new.
Proof.
  intro F. unfold new_calls. rewrite F. cbn [journal].
  apply skipn_length_app.
Qed.

Lemma final_generate (sections : list string) (h : heap) :
  final (generate_website_copy lib llm sections) h =
  final (attempt lib llm sections) h.
Proof.
  unfold final. rewrite generate_website_copy_eq.
  destruct (attempt lib llm sections h) as [[e|d] h']; reflexivity.
Qed.

Lemma outcome_generate (sections : list string) (h : heap) :
  outcome (generate_website_copy lib llm sections) h =
  match outcome (attempt lib llm sections) h with
  | inl e => inl (wrapped e)
  | inr d => inr d
  end.
Proof.
  unfold outcome. rewrite generate_website_copy_eq.
  destruct (attempt lib llm sections h) as [[e|d] h']; reflexivity.
Qed.

Lemma new_calls_generate (sections : list string) (h : heap) :
  new_calls (generate_website_copy lib llm sections) h =
  new_calls (attempt lib llm sections) h.
Proof. unfold new_calls. now rewrite final_generate. Qed.

(** The run stops at the strategy agent when its prompt cannot be built. *)
Lemma generate_stops_at_strategy (sections : list string) (h : heap)
    (research : string) (cause : exn) :
  llm (journal h) (research_value (copy_input h)) = inr research ->
  strategy_request lib research (copy_input h) = inl cause ->
  generate_website_copy lib llm sections h =
  (inl (wrapped cause),
   mk_heap (copy_input h)
     (journal h ++
      [mk_call ResearchAgent (research_value (copy_input h)) (inr research)])).
Proof.
  intros R Q.
  rewrite generate_website_copy_eq, attempt_eq, analyze_target_audience_eq.
  unfold llm_invoke at 1. rewrite R.
  rewrite create_content_strategy_eq. cbn [copy_input]. now rewrite Q.
Qed.

(** The shape of every journal: the research call; then perhaps the
    strategy call; and only when that one was answered, the calls of the
    loop. *)
Lemma attempt_calls (sections : list string) (h : heap) :
  (exists c1 : call,
      new_calls (attempt lib llm sections) h = [c1] /\
      caller c1 = ResearchAgent) \/
  (exists c1 c2 : call,
      new_calls (attempt lib llm sections) h = [c1; c2] /\
      caller c1 = ResearchAgent /\ caller c2 = StrategyAgent) \/
  (exists (c1 c2 : call) (rest : list call),
      new_calls (attempt lib llm sections) h = c1 :: c2 :: rest /\
      caller c1 = ResearchAgent /\ caller c2 = StrategyAgent /\
      answered c2 /\ Forall (fun c => drafting (caller c)) rest).
Proof.
  unfold new_calls, final.
  rewrite attempt_eq, analyze_target_audience_eq.
  unfold llm_invoke.
  destruct (llm (journal h) (research_value (copy_input h))) as [e|research].
  - left. cbn [snd journal]. rewrite skipn_length_app. eauto.
  - rewrite create_content_strategy_eq. cbn [copy_input].
    destruct (strategy_request lib research (copy_input h)) as [e|value].
    + left. cbn [snd journal]. rewrite skipn_length_app. eauto.
    + unfold llm_invoke. cbn [journal copy_input].
      destruct (llm _ value) as [e|strategy] eqn:E.
      * right. left. cbn [snd journal].
        rewrite <- app_assoc, skipn_length_app. cbn [app]. eauto.
      * right. right.
        destruct (orderly_for_sections strategy sections []
                    (mk_heap (copy_input h)
                       ((journal h ++
                         [mk_call ResearchAgent (research_value (copy_input h))
                            (inr research)]) ++
                        [mk_call StrategyAgent value (inr strategy)])))
          as [rest [F [_ W]]].
        unfold final in F. rewrite F. cbn [journal copy_input].
        rewrite <- !app_assoc, skipn_length_app. cbn [app].
        eexists _, _, rest. repeat split; [|exact W].
        now exists strategy.
Qed.

(** *** Runs that must return *)

Lemma for_sections_succeeds (strategy : string) (usps : list string)
    (sections : list string) :
  reliable llm ->
  forall (d : dict) (h : heap),
    unique_selling_points (copy_input h) = Some usps ->
    exists (d' : dict) (h' : heap),
      for_sections lib llm strategy sections d h = (inr d', h').
Proof.
  intro Rel. induction sections as [|section rest IH]; intros d h U.
  - exists d, h. reflexivity.
  - rewrite for_sections_cons, write_website_copy_eq,
      (copywriting_request_value lib strategy section _ usps U).
    unfold llm_invoke at 1.
    destruct (Rel (journal h)
                (copywriting_value strategy section (copy_input h) (join ", " usps)))
      as [draft ->].
    rewrite review_copy_eq. unfold llm_invoke at 1. cbn [journal copy_input].
    match goal with
    | |- context [llm ?j (editor_value draft)] =>
        destruct (Rel j (editor_value draft)) as [final_copy ->]
    end.
    apply IH. exact U.
Qed.

(** With a client that answers, a tone without braces and a constructed
    request, the run returns. *)
Lemma generate_succeeds (sections : list string) (h : heap) (usps : list string) :
  reliable llm ->
  no_braces (tone (copy_input h)) = true ->
  unique_selling_points (copy_input h) = Some usps ->
  exists (d : dict) (h' : heap),
    generate_website_copy lib llm sections h = (inr d, h').
Proof.
  intros Rel B U.
  rewrite generate_website_copy_eq, attempt_eq, analyze_target_audience_eq.
  unfold llm_invoke at 1.
  destruct (Rel (journal h) (research_value (copy_input h))) as [research ->].
  rewrite create_content_strategy_eq. cbn [copy_input].
  rewrite (strategy_request_value lib research _ usps U B).
  unfold llm_invoke at 1. cbn [journal copy_input].
  match goal with
  | |- context [llm ?j (strategy_value ?r ?c ?u)] =>
      destruct (Rel j (strategy_value r c u)) as [strategy ->]
  end.
  match goal with
  | |- context [for_sections lib llm strategy sections [] ?h2] =>
      destruct (for_sections_succeeds strategy usps sections Rel [] h2 U)
        as [d [h' ->]]
  end.
  now exists d, h'.
Qed.

End RunFacts.

(** * The pipeline properties *)

Section Pipeline.

Variable lib : library.
Variable llm : client.

(** C1.  A call to [generate_website_copy] that returns gives a dictionary
    with exactly one entry for each distinct name of [sections]: its keys
    are the names in the order of their first occurrence, without
    duplicates, and under each name stands the edited copy of the last
    occurrence of that name (the answer to the edit call of that
    occurrence, call number [2 + 2 * i + 1] of the run). *)
Theorem generate_result_entries (sections : list string) (h h' : heap) (d : dict) :
  generate_website_copy lib llm sections h = (inr d, h') ->
  keys d = first_occurrences sections /\
  NoDup (keys d) /\
  (forall name, In name (keys d) <-> In name sections) /\
  forall (i : nat) (name : string),
    nth_error sections i = Some name ->
    (forall j, i < j -> nth_error sections j <> Some name) ->
    exists (c : call) (copy : string),
      nth_error (journal h') (List.length (journal h) + 2 + 2 * i + 1) = Some c /\
      caller c = EditorAgent /\
      reply c = inr copy /\
      dict_get name d = Some copy.
Proof.
  intro R. apply generate_returns in R.
  destruct R as [research [strategy [value [usps [done [U [Q [Hs [Hh Hd]]]]]]]]].
  assert (K : keys d = first_occurrences sections)
    by (rewrite Hd, keys_stored_empty; now rewrite Hs).
  split; [exact K|]. split; [rewrite K; apply NoDup_first_occurrences|].
  split; [intro name; rewrite K; apply first_occurrences_In|].
  intros i name Hi Hlast.
  rewrite <- Hs, nth_error_map in Hi.
  destruct (nth_error done i) as [w|] eqn:Hw; [|discriminate].
  cbn [option_map] in Hi. injection Hi as <-.
  destruct (nth_error_section_calls (copy_input h) (join ", " usps) strategy
              done i w Hw) as [_ He].
  eexists _, (final_of w). split; [|split; [|split]].
  - rewrite Hh. cbn [journal].
    rewrite nth_error_app2 by lia.
    replace (List.length (journal h) + 2 + 2 * i + 1 - List.length (journal h))
      with (S (S (2 * i + 1))) by lia.
    cbn [nth_error]. exact He.
  - reflexivity.
  - reflexivity.
  - rewrite Hd. apply (dict_get_stored_last done i w [] Hw).
    intros j w' Lt Hj E. apply (Hlast j Lt).
    rewrite <- Hs, nth_error_map, Hj. cbn [option_map]. now rewrite E.
Qed.


Lemma for_sections_app (strategy : string) (before rest : list string) :
  forall (d : dict) (h : heap),
    for_sections lib llm strategy (before ++ rest) d h =
    match for_sections lib llm strategy before d h with
    | (inl e, h') => (inl e, h')
    | (inr d', h') => for_sections lib llm strategy rest d' h'
    end.
Proof.
  induction before as [|section before IH]; intros d h; [reflexivity|].
  cbn [app]. rewrite !for_sections_cons.
  destruct (write_website_copy lib llm strategy section h) as [[e|draft] h1];
    [reflexivity|].
  destruct (review_copy lib llm draft h1) as [[e|final_copy] h2];
    [reflexivity|].
  apply IH.
Qed.

Lemma generate_of_attempt_failure (sections : list string) (h h' : heap) (e : exn) :
  attempt lib llm sections h = (inl e, h') ->
  generate_website_copy lib llm sections h = (inl (wrapped e), h').
Proof. intro A. now rewrite generate_website_copy_eq, A. Qed.

(** C3 (amended).  When a call of any agent fails, be it the service that
    raises or the agent that cannot build its prompt, the run returns no
    dictionary: it stops there and raises one [Exception] whose text is
    ["Copy generation failed: "] followed by the text of that failure, and
    every failure of a run has this form.  When it is the strategy agent
    that fails, whose call is the second call of the run, only the
    research and the strategy agent have called: no draft and no edit call
    was made. *)
Theorem generate_failure_is_wrapped (sections : list string) (h : heap) :
  let run := generate_website_copy lib llm sections in
  (forall (c : call) (cause : exn),
      In c (new_calls run h) -> reply c = inl cause ->
      outcome run h = inl (wrapped cause) /\
      exn_class (wrapped cause) = "Exception" /\
      str (wrapped cause) = "Copy generation failed: " ++ str cause) /\
  (forall e : exn,
      outcome run h = inl e -> exists cause, e = wrapped cause) /\
  (forall (c : call) (cause : exn),
      In c (new_calls run h) ->
      caller c = StrategyAgent -> reply c = inl cause ->
      nth_error (new_calls run h) 1 = Some c /\
      forall c', In c' (new_calls run h) ->
                 caller c' <> CopywritingAgent /\ caller c' <> EditorAgent) /\
  (forall (cause : exn) (h1 : heap),
      analyze_target_audience lib llm h = (inl cause, h1) ->
      run h = (inl (wrapped cause), h1)) /\
  (forall (research : string) (h1 : heap) (cause : exn) (h2 : heap),
      analyze_target_audience lib llm h = (inr research, h1) ->
      create_content_strategy lib llm research h1 = (inl cause, h2) ->
      run h = (inl (wrapped cause), h2) /\
      forall c', In c' (new_calls run h) ->
                 caller c' <> CopywritingAgent /\ caller c' <> EditorAgent) /\
  (forall (research strategy : string) (h1 h2 h3 : heap)
          (before after : list string) (section : string) (d : dict),
      sections = (before ++ section :: after)%list ->
      analyze_target_audience lib llm h = (inr research, h1) ->
      create_content_strategy lib llm research h1 = (inr strategy, h2) ->
      for_sections lib llm strategy before [] h2 = (inr d, h3) ->
      (forall (cause : exn) (h4 : heap),
          write_website_copy lib llm strategy section h3 = (inl cause, h4) ->
          run h = (inl (wrapped cause), h4)) /\
      (forall (draft : string) (h4 : heap) (cause : exn) (h5 : heap),
          write_website_copy lib llm strategy section h3 = (inr draft, h4) ->
          review_copy lib llm draft h4 = (inl cause, h5) ->
          run h = (inl (wrapped cause), h5))).
Proof.
  cbv zeta.
  assert (Calls : (forall (c : call) (cause : exn),
      In c (new_calls (generate_website_copy lib llm sections) h) ->
      reply c = inl cause ->
      outcome (generate_website_copy lib llm sections) h = inl (wrapped cause) /\
      exn_class (wrapped cause) = "Exception" /\
      str (wrapped cause) = "Copy generation failed: " ++ str cause) /\
  (forall e : exn,
      outcome (generate_website_copy lib llm sections) h = inl e ->
      exists cause, e = wrapped cause) /\
  (forall (c : call) (cause : exn),
      In c (new_calls (generate_website_copy lib llm sections) h) ->
      caller c = StrategyAgent -> reply c = inl cause ->
      nth_error (new_calls (generate_website_copy lib llm sections) h) 1
      = Some c /\
      forall c', In c' (new_calls (generate_website_copy lib llm sections) h) ->
                 caller c' <> CopywritingAgent /\ caller c' <> EditorAgent)).
  {
    rewrite new_calls_generate, outcome_generate.
    destruct (orderly_attempt lib llm sections h) as [new [F [T _]]].
    rewrite (new_calls_of _ _ new F).
    split; [|split].
    - intros c cause I Rc. split; [|split; reflexivity].
      destruct (outcome (attempt lib llm sections) h) as [e|d]; cbn [tidy] in T.
      + destruct T as [T | [before [c0 [E [Fb R0]]]]].
        * rewrite Forall_forall in T. destruct (T c I) as [text A].
          rewrite Rc in A. discriminate.
        * subst new. apply in_app_or in I. destruct I as [I | [<- | []]].
          -- rewrite Forall_forall in Fb. destruct (Fb c I) as [text A].
             rewrite Rc in A. discriminate.
          -- rewrite R0 in Rc. now injection Rc as ->.
      + rewrite Forall_forall in T. destruct (T c I) as [text A].
        rewrite Rc in A. discriminate.
    - intros e E.
      destruct (outcome (attempt lib llm sections) h) as [cause|d];
        [|discriminate].
      injection E as <-. now exists cause.
    - intros c cause I Cc Rc.
      pose proof (attempt_calls lib llm sections h) as S.
      rewrite (new_calls_of _ _ new F) in S.
      destruct S as [[c1 [E C1]]
                    | [[c1 [c2 [E [C1 C2]]]]
                      | [c1 [c2 [rest [E [C1 [C2 [[text A2] D]]]]]]]]];
        subst new.
      + destruct I as [<- | []]. rewrite C1 in Cc. discriminate.
      + destruct I as [<- | [<- | []]]; [rewrite C1 in Cc; discriminate|].
        split; [reflexivity|].
        intros c' [<- | [<- | []]]; [rewrite C1 | rewrite Cc];
          split; discriminate.
      + exfalso. destruct I as [<- | [<- | I]].
        * rewrite C1 in Cc. discriminate.
        * rewrite Rc in A2. discriminate.
        * rewrite Forall_forall in D.
          destruct (D c I) as [X | X]; rewrite X in Cc; discriminate.
  }
  destruct Calls as [C1 [C2 C3]].
  split; [exact C1|]. split; [exact C2|]. split; [exact C3|].
  split; [|split].
  - intros cause h1 A. apply generate_of_attempt_failure.
    now rewrite attempt_eq, A.
  - intros research h1 cause h2 A S.
    assert (R : generate_website_copy lib llm sections h =
                (inl (wrapped cause), h2)).
    { apply generate_of_attempt_failure. now rewrite attempt_eq, A, S. }
    split; [exact R|].
    destruct (orderly_agent llm planning ResearchAgent _ _
                (analyze_target_audience_shape lib llm) (or_introl eq_refl) h)
      as [new1 [F1 [_ W1]]].
    unfold final in F1. rewrite A in F1. cbn [snd] in F1. subst h1.
    destruct (orderly_agent llm planning StrategyAgent _ _
                (create_content_strategy_shape lib llm research)
                (or_intror eq_refl)
                (mk_heap (copy_input h) (journal h ++ new1)))
      as [new2 [F2 [_ W2]]].
    unfold final in F2. rewrite S in F2. cbn [snd copy_input journal] in F2.
    unfold new_calls, final. rewrite R. cbn [snd]. rewrite F2.
    cbn [journal]. rewrite <- app_assoc, skipn_length_app.
    intros c' I. apply in_app_or in I.
    assert (P : planning (caller c')).
    { destruct I as [I | I];
        [rewrite Forall_forall in W1; now apply W1
        |rewrite Forall_forall in W2; now apply W2]. }
    destruct P as [X | X]; rewrite X; split; discriminate.
  - intros research strategy h1 h2 h3 before after section d -> A S L.
    split.
    + intros cause h4 Wc. apply generate_of_attempt_failure.
      rewrite attempt_eq, A, S, for_sections_app, L, for_sections_cons.
      now rewrite Wc.
    + intros draft h4 cause h5 Wc Rc. apply generate_of_attempt_failure.
      rewrite attempt_eq, A, S, for_sections_app, L, for_sections_cons.
      now rewrite Wc, Rc.
Qed.

(** C4 (amended).  [generate_website_copy] does not validate the request.
    With an empty [product] it starts like any other run: its first act is
    the research call, whose content message carries the empty product.
    The only exception it ever raises is the wrapped failure of a stage;
    and when the client answers, the tone has no braces and the request
    was constructed, the run returns a dictionary. *)
Theorem generate_accepts_empty_product (sections : list string) (h : heap) :
  product (copy_input h) = EmptyString ->
  let run := generate_website_copy lib llm sections in
  let first :=
    mk_call ResearchAgent (research_value (copy_input h))
      (llm (journal h) (research_value (copy_input h))) in
  (exists rest, new_calls run h = first :: rest) /\
  (forall e : exn, outcome run h = inl e -> exists cause, e = wrapped cause) /\
  (forall usps,
      reliable llm ->
      no_braces (tone (copy_input h)) = true ->
      unique_selling_points (copy_input h) = Some usps ->
      exists d, outcome run h = inr d).
Proof.
  intros _. cbv zeta. split; [|split].
  - rewrite new_calls_generate.
    destruct (orderly_attempt lib llm sections h) as [new [F _]].
    rewrite (new_calls_of _ _ new F).
    unfold final in F. rewrite attempt_eq, analyze_target_audience_eq in F.
    unfold llm_invoke in F at 1.
    destruct (llm (journal h) (research_value (copy_input h))) as [e|research].
    + cbn [snd] in F. injection F as F. apply app_inv_head in F.
      subst new. now exists [].
    + destruct (orderly_bind (fun _ => True)
                  (create_content_strategy lib llm research)
                  (fun strategy => for_sections lib llm strategy sections [])
                  (orderly_agent llm (fun _ => True) StrategyAgent _ _
                     (create_content_strategy_shape lib llm research) I)
                  (fun strategy =>
                     orderly_weaken _ _ _ (fun _ _ => I)
                       (orderly_for_sections lib llm strategy sections []))
                  (mk_heap (copy_input h)
                     (journal h ++
                      [mk_call ResearchAgent (research_value (copy_input h))
                         (inr research)])))
        as [rest [F' _]].
      unfold final, bind in F'. rewrite F' in F. cbn [copy_input journal] in F.
      injection F as F. rewrite <- app_assoc in F. apply app_inv_head in F.
      subst new. now exists rest.
  - intros e E. rewrite outcome_generate in E.
    destruct (outcome (attempt lib llm sections) h) as [cause|d];
      [|discriminate].
    injection E as <-. now exists cause.
  - intros usps Rel B U.
    destruct (generate_succeeds lib llm sections h usps Rel B U) as [d [h' E]].
    exists d. unfold outcome. now rewrite E.
Qed.

(** C5.  The unique selling points reach the strategy and the drafting
    prompt joined with [", "], in order; an empty list gives the empty
    string, not the word [None].  The drafting agent calls the client
    with a content message that holds the joined text after [USPs: ]; so
    does the strategy agent, whenever its system template is read without
    error and every variable of it has a value. *)
Theorem usps_are_joined_with_comma_space (ci : CopyInput) (usps : list string) :
  unique_selling_points ci = Some usps ->
  joined_usps ci = inr (String.concat ", " usps) /\
  (usps = [] ->
   joined_usps ci = inr EmptyString /\ joined_usps ci <> inr "None") /\
  (forall (strategy section : string) (j : list call),
      write_website_copy lib llm strategy section (mk_heap ci j) =
      llm_invoke llm CopywritingAgent
        [(system, copywriting_instruction ci);
         (human, copywriting_text strategy section ci
                   (String.concat ", " usps))]
        (mk_heap ci j)) /\
  (forall (research : string) (ss : list segment) (j : list call),
      parse (strategy_system (tone ci)) = Parsed ss ->
      create_content_strategy lib llm research (mk_heap ci j) =
      match missing ss
              (strategy_kwargs research ci (String.concat ", " usps)) with
      | [] =>
          llm_invoke llm StrategyAgent
            [(system,
              render ss (strategy_kwargs research ci (String.concat ", " usps)));
             (human, strategy_text research ci (String.concat ", " usps))]
            (mk_heap ci j)
      | name :: names =>
          (inl (missing_variables lib (name :: names)), mk_heap ci j)
      end).
Proof.
  intro U.
  assert (J : joined_usps ci = inr (String.concat ", " usps))
    by (unfold joined_usps; now rewrite U, join_concat).
  split; [exact J|]. split; [|split].
  - intros ->. rewrite J. cbn [String.concat]. split; [reflexivity|].
    discriminate.
  - intros strategy section j.
    rewrite write_website_copy_eq. cbn [copy_input].
    rewrite (copywriting_request_value lib strategy section ci usps U).
    now rewrite join_concat.
  - intros research ss j P.
    rewrite create_content_strategy_eq. cbn [copy_input].
    rewrite (strategy_request_parsed lib research ci usps ss U P).
    rewrite join_concat.
    destruct (missing ss _); reflexivity.
Qed.

(** C6.  A constructed [CopyInput] holds a list of selling points, the
    empty list when the argument was left out; and neither the agents nor
    [generate_website_copy] change the [CopyInput]: it is the same after
    the call, returned or raised, as before. *)
Theorem copy_input_is_only_read :
  (forall (product tone length industry target_audience brand_voice : string)
          (unique_selling_points : option (list string)),
      exists items : list string,
        Backend.unique_selling_points
          (new_CopyInput product tone length industry target_audience
             brand_voice unique_selling_points) = Some items /\
        (unique_selling_points = None -> items = []) /\
        (forall given, unique_selling_points = Some given -> items = given)) /\
  (forall (sections : list string) (h : heap),
      copy_input (final (generate_website_copy lib llm sections) h) =
      copy_input h) /\
  (forall h : heap,
      copy_input (final (analyze_target_audience lib llm) h) = copy_input h) /\
  (forall (research : string) (h : heap),
      copy_input (final (create_content_strategy lib llm research) h) =
      copy_input h) /\
  (forall (strategy section : string) (h : heap),
      copy_input (final (write_website_copy lib llm strategy section) h) =
      copy_input h) /\
  (forall (copy : string) (h : heap),
      copy_input (final (review_copy lib llm copy) h) = copy_input h).
Proof.
  assert (Fr : forall (A : Type) (m : M A) (h : heap),
             orderly (fun _ => True) m ->
             copy_input (final m h) = copy_input h).
  { intros A m h O. destruct (O h) as [new [F _]]. now rewrite F. }
  split; [|split; [|split; [|split; [|split]]]].
  - intros p t l i a b u. unfold new_CopyInput, post_init.
    cbn [Backend.unique_selling_points].
    destruct u as [[|x rest]|].
    + exists []. repeat split. intros given E. now injection E as <-.
    + exists (x :: rest). repeat split; [discriminate|].
      intros given E. now injection E as <-.
    + exists []. repeat split. discriminate.
  - intros sections h. rewrite final_generate. apply Fr, orderly_attempt.
  - intro h. apply Fr.
    eapply orderly_agent; [apply analyze_target_audience_shape | exact I].
  - intros research h. apply Fr.
    eapply orderly_agent; [apply create_content_strategy_shape | exact I].
  - intros strategy section h. apply Fr.
    eapply orderly_agent; [apply write_website_copy_shape | exact I].
  - intros copy h. apply Fr.
    eapply orderly_agent; [apply review_copy_shape | exact I].
Qed.

(** C7.  With a client that is a function of the prompt, two runs on the
    same [CopyInput] and the same sections make the same calls in the same
    order and end the same way, whatever the journal held before. *)
Theorem generate_is_deterministic (sections : list string) (ci : CopyInput)
    (j1 j2 : list call) :
  stateless llm ->
  let run := generate_website_copy lib llm sections in
  outcome run (mk_heap ci j1) = outcome run (mk_heap ci j2) /\
  new_calls run (mk_heap ci j1) = new_calls run (mk_heap ci j2).
Proof.
  intro St. cbv zeta.
  destruct (insensitive_attempt lib llm sections St ci j1 j2)
    as [r [new [E1 E2]]].
  assert (R : forall j,
             attempt lib llm sections (mk_heap ci j) =
               (r, mk_heap ci (j ++ new)) ->
             outcome (generate_website_copy lib llm sections) (mk_heap ci j) =
               match r with inl e => inl (wrapped e) | inr d => inr d end /\
             new_calls (generate_website_copy lib llm sections) (mk_heap ci j) =
               new).
  { intros j E. split.
    - rewrite outcome_generate. unfold outcome. now rewrite E.
    - rewrite new_calls_generate. apply new_calls_of.
      unfold final. now rewrite E. }
  destruct (R j1 E1) as [-> ->]. destruct (R j2 E2) as [-> ->].
  split; reflexivity.
Qed.

(** C8 (amended).  The drafting agent calls the client once, with a
    system message built from [length] and [tone] only, and a content
    message that carries the strategy, the section name, [product],
    [brand_voice] and the joined selling points, and that names [tone]
    and [length] once more in its request for body copy. *)
Theorem drafting_request_text (strategy section : string) (h : heap)
    (usps : list string) :
  unique_selling_points (copy_input h) = Some usps ->
  write_website_copy lib llm strategy section h =
  llm_invoke llm CopywritingAgent
    [(system,
      "Expert copywriter creating " ++ length (copy_input h) ++ " "
      ++ tone (copy_input h) ++ " content.");
     (human,
      copywriting_text strategy section (copy_input h) (join ", " usps))]
    h /\
  (forall ci' : CopyInput,
      product ci' = product (copy_input h) ->
      brand_voice ci' = brand_voice (copy_input h) ->
      tone ci' = tone (copy_input h) ->
      length ci' = length (copy_input h) ->
      forall joined : string,
        copywriting_text strategy section ci' joined =
        copywriting_text strategy section (copy_input h) joined).
Proof.
  intro U. split.
  - rewrite write_website_copy_eq.
    now rewrite (copywriting_request_value lib strategy section _ usps U).
  - intros ci' Ep Eb Et El joined. unfold copywriting_text.
    now rewrite Ep, Eb, Et, El.
Qed.

(** C10.  The strategy agent pastes the tone into the text of its system
    template.  For a tone without braces the strategy agent builds its
    prompt, with the tone in place, and calls the client with it.  Some
    tone with a brace, for instance the single character [}], stops the
    strategy agent before it reaches the client: the run then ends after
    the research call with the wrapped failure. *)
Theorem strategy_tone_is_template_text :
  (forall (research : string) (h : heap) (usps : list string),
      unique_selling_points (copy_input h) = Some usps ->
      no_braces (tone (copy_input h)) = true ->
      create_content_strategy lib llm research h =
      llm_invoke llm StrategyAgent
        [(system,
          "You are a content strategist specializing in "
          ++ tone (copy_input h) ++ " copy.");
         (human, strategy_text research (copy_input h) (join ", " usps))]
        h) /\
  (exists t : string,
      no_braces t = false /\
      forall (sections : list string) (h : heap) (research : string),
        tone (copy_input h) = t ->
        llm (journal h) (research_value (copy_input h)) = inr research ->
        exists cause : exn,
          create_content_strategy lib llm research h = (inl cause, h) /\
          generate_website_copy lib llm sections h =
          (inl (wrapped cause),
           mk_heap (copy_input h)
             (journal h ++
              [mk_call ResearchAgent (research_value (copy_input h))
                 (inr research)]))).
Proof.
  split.
  - intros research h usps U B.
    rewrite create_content_strategy_eq.
    now rewrite (strategy_request_value lib research _ usps U B).
  - exists "}". split; [reflexivity|].
    intros sections h research T R.
    assert (Q : strategy_request lib research (copy_input h) =
                inl (ValueError "Single '}' encountered in format string")).
    { apply strategy_request_invalid. rewrite T. vm_compute. reflexivity. }
    eexists. split.
    + rewrite create_content_strategy_eq, Q. reflexivity.
    + now apply generate_stops_at_strategy.
Qed.

End Pipeline.

(** ** The properties on sample runs *)

Lemma generate_result_entries_witness :
  generate_website_copy Sample.lib Sample.numbered Sample.twice
    (Sample.fresh Sample.input_data) =
  (inr Sample.result_twice, snd Sample.run_twice) /\
  (keys Sample.result_twice = first_occurrences Sample.twice /\
   NoDup (keys Sample.result_twice) /\
   (forall name, In name (keys Sample.result_twice) <-> In name Sample.twice) /\
   forall (i : nat) (name : string),
     nth_error Sample.twice i = Some name ->
     (forall j, i < j -> nth_error Sample.twice j <> Some name) ->
     exists (c : call) (copy : string),
       nth_error (journal (snd Sample.run_twice))
         (List.length (journal (Sample.fresh Sample.input_data)) + 2 + 2 * i + 1)
       = Some c /\
       caller c = EditorAgent /\
       reply c = inr copy /\
       dict_get name Sample.result_twice = Some copy).
Proof.
  assert (H : generate_website_copy Sample.lib Sample.numbered Sample.twice
                (Sample.fresh Sample.input_data) =
              (inr Sample.result_twice, snd Sample.run_twice))
    by (vm_compute; reflexivity).
  split; [exact H|].
  exact (generate_result_entries Sample.lib Sample.numbered Sample.twice
           (Sample.fresh Sample.input_data) (snd Sample.run_twice)
           Sample.result_twice H).
Defined.



(** The claim of C3 as worded, with the strategy call taken to be the third
    call: it fails, because the third call of a run is the draft call of
    the first section. *)
Lemma third_call_is_a_draft_call :
  ~ (forall (lib : library) (llm : client) (sections : list string) (h : heap)
            (c : call) (cause : exn),
        nth_error (new_calls (generate_website_copy lib llm sections) h) 2
        = Some c ->
        reply c = inl cause ->
        forall c',
          In c' (new_calls (generate_website_copy lib llm sections) h) ->
          caller c' <> CopywritingAgent /\ caller c' <> EditorAgent).
Proof.
  intro H.
  pose (new := new_calls
                 (generate_website_copy Sample.lib (Sample.fails_on 3) ["homepage"])
                 (Sample.fresh Sample.input_data)).
  assert (N : nth_error new 2 =
              Some (mk_call CopywritingAgent
                      (copywriting_value "copy" "homepage" Sample.input_data
                         "30-minute delivery, local restaurants, no minimum order")
                      (inl (mk_exn "RuntimeError" "rate limit exceeded"))))
    by (vm_compute; reflexivity).
  destruct (H _ _ _ _ _ _ N eq_refl _ (nth_error_In _ _ N)) as [X _].
  now apply X.
Qed.

Lemma generate_failure_is_wrapped_witness :
  nth_error (journal (snd Sample.run_second_fails)) 1 =
    Some (mk_call StrategyAgent
            (strategy_value "copy" Sample.input_data
               "30-minute delivery, local restaurants, no minimum order")
            (inl (mk_exn "RuntimeError" "rate limit exceeded"))) /\
  fst Sample.run_second_fails =
    inl (Exception "Copy generation failed: rate limit exceeded") /\
  (forall c',
      In c' (new_calls
               (generate_website_copy Sample.lib (Sample.fails_on 2)
                  Sample.sections)
               (Sample.fresh Sample.input_data)) ->
      caller c' <> CopywritingAgent /\ caller c' <> EditorAgent) /\
  generate_website_copy Sample.lib Sample.constant Sample.sections
    (Sample.fresh (Sample.with_tone "}")) =
  (inl (Exception
          "Copy generation failed: Single '}' encountered in format string"),
   snd (analyze_target_audience Sample.lib Sample.constant
          (Sample.fresh (Sample.with_tone "}")))).
Proof.
  assert (N : nth_error
                (new_calls
                   (generate_website_copy Sample.lib (Sample.fails_on 2)
                      Sample.sections)
                   (Sample.fresh Sample.input_data)) 1 =
              Some (mk_call StrategyAgent
                      (strategy_value "copy" Sample.input_data
                         "30-minute delivery, local restaurants, no minimum order")
                      (inl (mk_exn "RuntimeError" "rate limit exceeded"))))
    by (vm_compute; reflexivity).
  destruct (generate_failure_is_wrapped Sample.lib (Sample.fails_on 2)
              Sample.sections (Sample.fresh Sample.input_data))
    as [W [_ [S _]]].
  split; [exact N|]. split; [|split].
  - exact (proj1 (W _ _ (nth_error_In _ _ N) eq_refl)).
  - exact (proj2 (S _ _ (nth_error_In _ _ N) eq_refl eq_refl)).
  - assert (A : analyze_target_audience Sample.lib Sample.constant
                  (Sample.fresh (Sample.with_tone "}")) =
                (inr "copy",
                 snd (analyze_target_audience Sample.lib Sample.constant
                        (Sample.fresh (Sample.with_tone "}")))))
      by (vm_compute; reflexivity).
    assert (B : create_content_strategy Sample.lib Sample.constant "copy"
                  (snd (analyze_target_audience Sample.lib Sample.constant
                          (Sample.fresh (Sample.with_tone "}")))) =
                (inl (ValueError "Single '}' encountered in format string"),
                 snd (analyze_target_audience Sample.lib Sample.constant
                        (Sample.fresh (Sample.with_tone "}")))))
      by (vm_compute; reflexivity).
    destruct (generate_failure_is_wrapped Sample.lib Sample.constant
                Sample.sections (Sample.fresh (Sample.with_tone "}")))
      as [_ [_ [_ [_ [T _]]]]].
    exact (proj1 (T _ _ _ _ A B)).
Defined.

(** The claim of C4: a request with an empty product is refused before any
    call.  The run below has an empty product and returns. *)
Lemma empty_product_is_not_refused :
  ~ (forall (lib : library) (llm : client) (sections : list string) (h : heap),
        product (copy_input h) = EmptyString ->
        exists e : exn,
          generate_website_copy lib llm sections h = (inl e, h)).
Proof.
  intro H.
  destruct (H Sample.lib Sample.constant []
              (Sample.fresh (Sample.with_product EmptyString)) eq_refl)
    as [e E].
  vm_compute in E. discriminate.
Qed.

Lemma generate_accepts_empty_product_witness :
  product (copy_input (Sample.fresh (Sample.with_product EmptyString)))
  = EmptyString /\
  (exists rest,
      new_calls (generate_website_copy Sample.lib Sample.constant Sample.sections)
        (Sample.fresh (Sample.with_product EmptyString)) =
      mk_call ResearchAgent
        (research_value (Sample.with_product EmptyString)) (inr "copy")
      :: rest) /\
  (exists d,
      outcome (generate_website_copy Sample.lib Sample.constant Sample.sections)
        (Sample.fresh (Sample.with_product EmptyString)) = inr d).
Proof.
  split; [reflexivity|].
  destruct (generate_accepts_empty_product Sample.lib Sample.constant
              Sample.sections (Sample.fresh (Sample.with_product EmptyString))
              eq_refl) as [F [_ R]].
  split; [exact F|].
  apply (R ["30-minute delivery"; "local restaurants"; "no minimum order"]).
  - intros j value. exists "copy". reflexivity.
  - reflexivity.
  - reflexivity.
Defined.

Lemma usps_are_joined_with_comma_space_witness :
  unique_selling_points Sample.input_data =
    Some ["30-minute delivery"; "local restaurants"; "no minimum order"] /\
  joined_usps Sample.input_data =
    inr "30-minute delivery, local restaurants, no minimum order" /\
  write_website_copy Sample.lib Sample.constant "plan" "homepage"
    (mk_heap Sample.input_data []) =
  llm_invoke Sample.constant CopywritingAgent
    [(system, copywriting_instruction Sample.input_data);
     (human,
      copywriting_text "plan" "homepage" Sample.input_data
        "30-minute delivery, local restaurants, no minimum order")]
    (mk_heap Sample.input_data []).
Proof.
  split; [reflexivity|].
  destruct (usps_are_joined_with_comma_space Sample.lib Sample.constant
              Sample.input_data
              ["30-minute delivery"; "local restaurants"; "no minimum order"]
              eq_refl) as [J [_ [D _]]].
  split; [exact J | exact (D "plan" "homepage" [])].
Defined.

Lemma generate_is_deterministic_witness :
  stateless Sample.echo /\
  outcome (generate_website_copy Sample.lib Sample.echo Sample.sections)
    (mk_heap Sample.input_data []) =
  outcome (generate_website_copy Sample.lib Sample.echo Sample.sections)
    (mk_heap Sample.input_data (journal (snd Sample.run_example))) /\
  new_calls (generate_website_copy Sample.lib Sample.echo Sample.sections)
    (mk_heap Sample.input_data []) =
  new_calls (generate_website_copy Sample.lib Sample.echo Sample.sections)
    (mk_heap Sample.input_data (journal (snd Sample.run_example))).
Proof.
  assert (St : stateless Sample.echo) by (intros j1 j2 value; reflexivity).
  split; [exact St|].
  exact (generate_is_deterministic Sample.lib Sample.echo Sample.sections
           Sample.input_data [] (journal (snd Sample.run_example)) St).
Defined.

(** The claim of C8: the content message of the drafting agent is fixed by
    the strategy, the section, the product, the brand voice and the
    selling points.  For two requests that differ in the tone only, the
    drafting agent sends different content messages. *)
Lemma drafting_content_depends_on_tone :
  ~ (forall (lib : library) (llm : client) (strategy section : string)
            (h1 h2 : heap),
        product (copy_input h1) = product (copy_input h2) ->
        brand_voice (copy_input h1) = brand_voice (copy_input h2) ->
        unique_selling_points (copy_input h1) =
        unique_selling_points (copy_input h2) ->
        map (fun c => message human (sent c))
          (new_calls (write_website_copy lib llm strategy section) h1) =
        map (fun c => message human (sent c))
          (new_calls (write_website_copy lib llm strategy section) h2)).
Proof.
  intro H.
  pose proof (H Sample.lib Sample.constant "plan" "homepage"
                (Sample.fresh (Sample.with_tone "casual"))
                (Sample.fresh (Sample.with_tone "luxury"))
                eq_refl eq_refl eq_refl) as E.
  vm_compute in E. discriminate.
Qed.

Lemma drafting_request_text_witness :
  unique_selling_points (copy_input (Sample.fresh Sample.input_data)) =
    Some ["30-minute delivery"; "local restaurants"; "no minimum order"] /\
  write_website_copy Sample.lib Sample.constant "plan" "homepage"
    (Sample.fresh Sample.input_data) =
  llm_invoke Sample.constant CopywritingAgent
    [(system, "Expert copywriter creating short informative content.");
     (human,
      copywriting_text "plan" "homepage" Sample.input_data
        "30-minute delivery, local restaurants, no minimum order")]
    (Sample.fresh Sample.input_data).
Proof.
  split; [reflexivity|].
  exact (proj1 (drafting_request_text Sample.lib Sample.constant "plan"
                  "homepage" (Sample.fresh Sample.input_data)
                  ["30-minute delivery"; "local restaurants"; "no minimum order"]
                  eq_refl)).
Defined.

(** Without sections, a run whose two agents get through returns the
    empty dictionary after two calls. *)
Lemma generate_empty_sections (lib : library) (llm : client) (h : heap)
    (usps : list string) :
  reliable llm ->
  no_braces (tone (copy_input h)) = true ->
  unique_selling_points (copy_input h) = Some usps ->
  exists research strategy : string,
    generate_website_copy lib llm [] h =
    (inr [],
     mk_heap (copy_input h)
       (journal h ++
        [mk_call ResearchAgent (research_value (copy_input h)) (inr research);
         mk_call StrategyAgent
           (strategy_value research (copy_input h) (join ", " usps))
           (inr strategy)])).
Proof.
  intros Rel B U.
  rewrite generate_website_copy_eq, attempt_eq, analyze_target_audience_eq.
  unfold llm_invoke at 1.
  destruct (Rel (journal h) (research_value (copy_input h))) as [research ->].
  rewrite create_content_strategy_eq. cbn [copy_input].
  rewrite (strategy_request_value lib research _ usps U B).
  unfold llm_invoke at 1. cbn [journal copy_input].
  match goal with
  | |- context [llm ?j (strategy_value ?r ?c ?u)] =>
      destruct (Rel j (strategy_value r c u)) as [strategy ->]
  end.
  exists research, strategy. cbn [for_sections ret].
  now rewrite <- app_assoc.
Qed.

(** C9.  The run below has no sections, a client that always answers and
    the tone [}]: it does not return the empty dictionary.  It raises the
    wrapped failure of the strategy agent after one call, the research
    call. *)
Theorem empty_sections_run_with_brace_tone :
  outcome (generate_website_copy Sample.lib Sample.constant [])
    (Sample.fresh (Sample.with_tone "}")) =
  inl (Exception
         "Copy generation failed: Single '}' encountered in format string") /\
  map caller
    (new_calls (generate_website_copy Sample.lib Sample.constant [])
       (Sample.fresh (Sample.with_tone "}"))) = [ResearchAgent].
Proof. split; vm_compute; reflexivity. Qed.

Lemma strategy_tone_is_template_text_witness :
  no_braces (tone (copy_input (Sample.fresh Sample.input_data))) = true /\
  create_content_strategy Sample.lib Sample.constant "insights"
    (Sample.fresh Sample.input_data) =
  llm_invoke Sample.constant StrategyAgent
    [(system, "You are a content strategist specializing in informative copy.");
     (human,
      strategy_text "insights" Sample.input_data
        "30-minute delivery, local restaurants, no minimum order")]
    (Sample.fresh Sample.input_data).
Proof.
  split; [reflexivity|].
  exact (proj1 (strategy_tone_is_template_text Sample.lib Sample.constant)
           "insights" (Sample.fresh Sample.input_data)
           ["30-minute delivery"; "local restaurants"; "no minimum order"]
           eq_refl eq_refl).
Defined.

(** * Further properties of [backend.py] *)

Section Agents.

Variable lib : library.
Variable llm : client.

(** X1.  The research agent never fails on its own account.  For every
    [CopyInput], whatever its fields contain, it sends one prompt, the
    templates with [industry], [product] and [target_audience] in place
    and nothing else scanned, and it ends as the client's answer to that
    prompt does: returned text or raised exception, unchanged. *)
Theorem research_agent_makes_one_call (h : heap) :
  let ci := copy_input h in
  let value :=
    [(system,
      "You are an expert market researcher specializing in " ++ industry ci
      ++ ".");
     (human, research_text ci)] in
  analyze_target_audience lib llm h =
  (llm (journal h) value,
   mk_heap ci
     (journal h ++ [mk_call ResearchAgent value (llm (journal h) value)])).
Proof. cbv zeta. now rewrite analyze_target_audience_eq. Qed.

(** X2.  The editor sees the draft and nothing of the request.  For
    every draft, whatever it contains, it sends one prompt, the fixed
    system message and the review template with the draft in place, and
    it ends as the client's answer to that prompt does; two requests give
    the same prompt for the same draft. *)
Theorem editor_makes_one_call (copy : string) (h : heap) :
  review_copy lib llm copy h =
  (llm (journal h) (editor_value copy),
   mk_heap (copy_input h)
     (journal h ++
      [mk_call EditorAgent (editor_value copy)
         (llm (journal h) (editor_value copy))])) /\
  forall ci : CopyInput,
    map sent (new_calls (review_copy lib llm copy) (mk_heap ci (journal h))) =
    map sent (new_calls (review_copy lib llm copy) h).
Proof.
  split.
  - now rewrite review_copy_eq.
  - intro ci. unfold new_calls, final. rewrite !review_copy_eq.
    unfold llm_invoke. cbn [snd journal copy_input].
    now rewrite !skipn_length_app.
Qed.

(** X3.  The drafting agent makes one call when the request holds a list
    of selling points.  When the field holds [None], which only an
    assignment after construction can bring about, it raises [TypeError]
    while joining and the client is not called. *)
Theorem drafting_agent_needs_a_list (strategy section : string) (h : heap) :
  (forall usps : list string,
      unique_selling_points (copy_input h) = Some usps ->
      let value :=
        copywriting_value strategy section (copy_input h) (join ", " usps) in
      write_website_copy lib llm strategy section h =
      (llm (journal h) value,
       mk_heap (copy_input h)
         (journal h ++
          [mk_call CopywritingAgent value (llm (journal h) value)]))) /\
  (unique_selling_points (copy_input h) = None ->
   write_website_copy lib llm strategy section h =
   (inl (TypeError "can only join an iterable"), h)).
Proof.
  split.
  - intros usps U. cbv zeta.
    now rewrite write_website_copy_eq,
      (copywriting_request_value lib strategy section _ usps U).
  - intro U.
    now rewrite write_website_copy_eq,
      (copywriting_request_none lib strategy section _ U).
Qed.

(** *** The size of a run *)

Lemma for_sections_adds_at_most (strategy : string) (sections : list string) :
  forall (d : dict) (h : heap),
  exists new : list call,
    journal (snd (for_sections lib llm strategy sections d h)) =
      (journal h ++ new)%list /\
    List.length new <= 2 * List.length sections.
Proof.
  induction sections as [|section rest IH]; intros d h.
  - exists []. cbn. rewrite app_nil_r. split; [reflexivity | lia].
  - rewrite for_sections_cons, write_website_copy_eq.
    destruct (copywriting_request lib strategy section (copy_input h))
      as [e|value].
    + exists []. cbn. rewrite app_nil_r. split; [reflexivity | lia].
    + unfold llm_invoke at 1.
      destruct (llm (journal h) value) as [e|draft].
      * eexists [_]. cbn [snd journal List.length]. split; [reflexivity | lia].
      * rewrite review_copy_eq. unfold llm_invoke at 1.
        cbn [journal copy_input].
        destruct (llm _ (editor_value draft)) as [e|final_copy].
        -- eexists [_; _]. cbn [snd journal List.length].
           rewrite <- app_assoc. split; [reflexivity | lia].
        -- match goal with
           | |- context [for_sections lib llm strategy rest ?d' ?h'] =>
               destruct (IH d' h') as [new [J L]]
           end.
           cbn [journal] in J. rewrite J, <- !app_assoc. cbn [app].
           eexists (_ :: _ :: new). split; [reflexivity|].
           cbn [List.length]. lia.
Qed.

Lemma attempt_adds_between (sections : list string) (h : heap) :
  exists new : list call,
    journal (snd (attempt lib llm sections h)) = (journal h ++ new)%list /\
    1 <= List.length new <= 2 + 2 * List.length sections.
Proof.
  rewrite attempt_eq, analyze_target_audience_eq. unfold llm_invoke at 1.
  destruct (llm (journal h) (research_value (copy_input h))) as [e|research].
  - eexists [_]. cbn [snd journal List.length]. split; [reflexivity | lia].
  - rewrite create_content_strategy_eq. cbn [copy_input].
    destruct (strategy_request lib research (copy_input h)) as [e|value].
    + eexists [_]. cbn [snd journal List.length]. split; [reflexivity | lia].
    + unfold llm_invoke at 1. cbn [journal copy_input].
      destruct (llm _ value) as [e|strategy].
      * eexists [_; _]. cbn [snd journal List.length].
        rewrite <- app_assoc. split; [reflexivity | lia].
      * match goal with
        | |- context [for_sections lib llm strategy sections [] ?h'] =>
            destruct (for_sections_adds_at_most strategy sections [] h')
              as [new [J L]]
        end.
        cbn [journal] in J. rewrite J, <- !app_assoc. cbn [app].
        eexists (_ :: _ :: new). split; [reflexivity|].
        cbn [List.length]. lia.
Qed.

Lemma journal_generate (sections : list string) (h : heap) :
  journal (snd (generate_website_copy lib llm sections h)) =
  journal (snd (attempt lib llm sections h)).
Proof.
  rewrite generate_website_copy_eq.
  destruct (attempt lib llm sections h) as [[e|d] h']; reflexivity.
Qed.

(** X4.  Every call of [generate_website_copy], returning or raising,
    calls the client at least once, for the research prompt, and at most
    [2 + 2 * n] times for [n] sections. *)
Theorem generate_call_count_bounds (sections : list string) (h : heap) :
  1 <= List.length (new_calls (generate_website_copy lib llm sections) h)
    <= 2 + 2 * List.length sections.
Proof.
  unfold new_calls, final. rewrite journal_generate.
  destruct (attempt_adds_between sections h) as [new [J L]].
  rewrite J, skipn_length_app. exact L.
Qed.

(** X5.  A run stops at the first call that fails: a call that raised is
    the last call of the run, and every call before it was answered. *)
Theorem failed_call_is_the_last (sections : list string) (h : heap)
    (before after : list call) (c : call) (e : exn) :
  new_calls (generate_website_copy lib llm sections) h
  = (before ++ c :: after)%list ->
  reply c = inl e ->
  after = [] /\ Forall answered before /\
  outcome (generate_website_copy lib llm sections) h = inl (wrapped e).
Proof.
  rewrite new_calls_generate, outcome_generate.
  destruct (orderly_attempt lib llm sections h) as [new [F [T _]]].
  rewrite (new_calls_of _ _ new F). intros -> Rc.
  assert (Bad : forall l : list call, Forall answered l -> In c l -> False).
  { intros l Fl I. rewrite Forall_forall in Fl.
    destruct (Fl c I) as [text A]. rewrite Rc in A. discriminate. }
  destruct (outcome (attempt lib llm sections) h) as [e0|d]; cbn [tidy] in T.
  - destruct T as [T | [pre [c0 [E [Fp R0]]]]].
    + exfalso. apply (Bad _ T). apply in_elt.
    + destruct after as [|x after'] using rev_ind.
      * apply app_inj_tail in E. destruct E as [-> ->].
        rewrite R0 in Rc. injection Rc as ->. auto.
      * exfalso. clear IHafter'.
        rewrite app_comm_cons, app_assoc in E.
        apply app_inj_tail in E. destruct E as [<- _].
        apply (Bad _ Fp). apply in_elt.
  - exfalso. apply (Bad _ T). apply in_elt.
Qed.

(** X6.  With a client that answers, a tone without braces and a list of
    selling points, [generate_website_copy] returns: a dictionary whose
    keys are the distinct section names in order, after exactly
    [2 + 2 * n] calls. *)
Theorem generate_returns_with_answering_client (sections : list string)
    (h : heap) (usps : list string) :
  reliable llm ->
  no_braces (tone (copy_input h)) = true ->
  unique_selling_points (copy_input h) = Some usps ->
  exists (d : dict) (h' : heap),
    generate_website_copy lib llm sections h = (inr d, h') /\
    keys d = first_occurrences sections /\
    copy_input h' = copy_input h /\
    List.length (journal h') =
    List.length (journal h) + 2 + 2 * List.length sections.
Proof.
  intros Rel B U.
  destruct (generate_succeeds lib llm sections h usps Rel B U) as [d [h' E]].
  exists d, h'. split; [exact E|].
  apply generate_returns in E.
  destruct E as [research [strategy [value [usps' [done [_ [_ [Hs [Hh Hd]]]]]]]]].
  split; [|split].
  - rewrite Hd, keys_stored_empty. now rewrite Hs.
  - now rewrite Hh.
  - rewrite Hh. cbn [journal]. rewrite length_app. cbn [List.length].
    rewrite length_section_calls, <- Hs, length_map. lia.
Qed.

End Agents.

(** * Further properties of the strategy template *)

Section ToneAsTemplate.

Variable lib : library.
Variable llm : client.

Lemma lits_app (a b : string) : lits (a ++ b) = (lits a ++ lits b)%list.
Proof. induction a as [|c a IH]; cbn; [reflexivity | now rewrite IH]. Qed.

Lemma scan_literal_app (s rest : string) :
  no_braces s = true ->
  forall done,
    scan done None (s ++ rest) = scan (rev (lits s) ++ done)%list None rest.
Proof.
  induction s as [|c s IH]; intros H done; [reflexivity|].
  cbn [no_braces] in H. apply andb_true_iff in H. destruct H as [Hc Hs].
  unfold is_brace in Hc. apply negb_true_iff, orb_false_iff in Hc.
  destruct Hc as [Hl Hr].
  cbn [append scan lits rev]. rewrite Hl, Hr, (IH Hs), <- app_assoc.
  reflexivity.
Qed.

Lemma scan_escaped (t rest : string) :
  forall done,
    scan done None (escape_braces t ++ rest) =
    scan (rev (lits t) ++ done)%list None rest.
Proof.
  induction t as [|c t IH]; intro done; [reflexivity|].
  cbn [escape_braces lits rev]. unfold is_brace.
  destruct (Ascii.eqb c lbrace) eqn:El.
  - apply Ascii.eqb_eq in El. subst c.
    cbn [orb append scan]. rewrite Ascii.eqb_refl, IH, <- app_assoc.
    reflexivity.
  - destruct (Ascii.eqb c rbrace) eqn:Er.
    + apply Ascii.eqb_eq in Er. subst c.
      cbn [orb append scan]. rewrite El, Ascii.eqb_refl, IH, <- app_assoc.
      reflexivity.
    + cbn [orb append scan]. rewrite El, Er, IH, <- app_assoc. reflexivity.
Qed.

Lemma parse_strategy_system_escaped (t : string) :
  parse (strategy_system (escape_braces t)) = Parsed (lits (strategy_system t)).
Proof.
  unfold parse, strategy_system.
  rewrite scan_literal_app by reflexivity.
  rewrite scan_escaped.
  rewrite scan_no_braces by reflexivity.
  rewrite !lits_app, !rev_app_distr, !rev_involutive, <- !app_assoc.
  reflexivity.
Qed.

(** X7.  A tone whose braces are doubled gets through the template
    reader: for every such tone the strategy agent builds its prompt and
    calls the client with it.  The system message shows the tone with
    single braces, while the content message, where the tone is a template
    variable, shows the doubled braces. *)
Theorem escaped_tone_builds_the_strategy_prompt (research : string)
    (h : heap) (usps : list string) (t : string) :
  unique_selling_points (copy_input h) = Some usps ->
  tone (copy_input h) = escape_braces t ->
  create_content_strategy lib llm research h =
  llm_invoke llm StrategyAgent
    [(system,
      "You are a content strategist specializing in " ++ t ++ " copy.");
     (human, strategy_text research (copy_input h) (join ", " usps))]
    h.
Proof.
  intros U T. rewrite create_content_strategy_eq.
  rewrite (strategy_request_parsed lib research (copy_input h) usps
             (lits (strategy_system t)) U)
    by (rewrite T; apply parse_strategy_system_escaped).
  unfold missing. rewrite variables_lits. cbn [filter].
  now rewrite render_lits.
Qed.

Lemma scan_field (name rest : string) :
  field_chars name = true ->
  forall (read : string) (done : list segment),
    is_positional (read ++ name) = false ->
    scan done (Some read) (name ++ String rbrace rest) =
    scan (Field (read ++ name) :: done) None rest.
Proof.
  induction name as [|c name IH]; intros H read done P.
  - cbn [append scan]. rewrite Ascii.eqb_refl.
    replace (read ++ EmptyString) with read in *
      by (clear; induction read as [|x r IHr]; cbn; [|rewrite <- IHr]; reflexivity).
    now rewrite P.
  - cbn [field_chars] in H.
    apply andb_true_iff in H. destruct H as [H Hn].
    apply andb_true_iff in H. destruct H as [Hb He].
    unfold is_brace in Hb. apply negb_true_iff, orb_false_iff in Hb.
    destruct Hb as [Hl Hr]. apply negb_true_iff in He.
    cbn [append scan]. rewrite Hr, Hl, He.
    assert (A : (read ++ String c EmptyString) ++ name = read ++ String c name)
      by (now rewrite append_assoc).
    rewrite IH; [now rewrite A | exact Hn | now rewrite A].
Qed.

Lemma scan_open_field (done : list segment) (c : ascii) (rest : string) :
  Ascii.eqb c lbrace = false ->
  scan done None (String lbrace (String c rest)) =
  scan done (Some EmptyString) (String c rest).
Proof.
  intro H. cbn [scan]. now rewrite Ascii.eqb_refl, H.
Qed.

Lemma parse_strategy_system_field (name : string) :
  plain_name name = true ->
  parse (strategy_system (String lbrace (name ++ String rbrace EmptyString))) =
  Parsed (lits "You are a content strategist specializing in "
          ++ Field name :: lits " copy.")%list.
Proof.
  intro P. unfold plain_name in P.
  apply andb_true_iff in P. destruct P as [Pc Pp]. apply negb_true_iff in Pp.
  unfold parse, strategy_system.
  rewrite scan_literal_app by reflexivity.
  destruct name as [|c name]; [discriminate|].
  assert (Hl : Ascii.eqb c lbrace = false).
  { cbn [field_chars] in Pc.
    apply andb_true_iff in Pc. destruct Pc as [Pc _].
    apply andb_true_iff in Pc. destruct Pc as [Pb _].
    unfold is_brace in Pb. apply negb_true_iff, orb_false_iff in Pb.
    tauto. }
  change (String lbrace (String c name ++ String rbrace EmptyString) ++ " copy.")
    with (String lbrace (String c ((name ++ String rbrace EmptyString) ++ " copy."))).
  rewrite (scan_open_field _ c _ Hl), append_assoc.
  change (String c (name ++ String rbrace EmptyString ++ " copy."))
    with (String c name ++ String rbrace " copy.").
  rewrite scan_field by assumption.
  rewrite scan_no_braces by reflexivity.
  cbn [rev app append]. rewrite rev_app_distr, rev_involutive.
  cbn [rev app]. now rewrite <- app_assoc.
Qed.

(** X8.  A tone of the form [{name}] is read as a replacement field of
    the system template.  When [name] is one of the variables handed to
    the prompt ([research], [product], [tone], [usps]) the strategy agent
    calls the client with that variable's value in the system message in
    place of the tone; for any other plain name it stops with the
    library's missing-variable error and does not call the client. *)
Theorem tone_naming_a_variable (research : string) (h : heap)
    (usps : list string) (name : string) :
  unique_selling_points (copy_input h) = Some usps ->
  plain_name name = true ->
  tone (copy_input h) = String lbrace (name ++ String rbrace EmptyString) ->
  create_content_strategy lib llm research h =
  match lookup name
          (strategy_kwargs research (copy_input h) (join ", " usps)) with
  | Some text =>
      llm_invoke llm StrategyAgent
        [(system,
          "You are a content strategist specializing in " ++ text ++ " copy.");
         (human, strategy_text research (copy_input h) (join ", " usps))]
        h
  | None => (inl (missing_variables lib [name]), h)
  end.
Proof.
  intros U P T. rewrite create_content_strategy_eq.
  rewrite (strategy_request_parsed lib research (copy_input h) usps _ U)
    by (rewrite T; apply (parse_strategy_system_field name P)).
  unfold missing. rewrite variables_app, variables_lits.
  cbn [variables app filter]. rewrite variables_lits. cbn [filter].
  destruct (lookup name _) as [text|] eqn:L; [|reflexivity].
  rewrite render_app, render_lits. cbn [render]. rewrite L, render_lits.
  reflexivity.
Qed.

End ToneAsTemplate.

(** * The example script *)

Section ExampleScript.

Variable upper : string -> string.
Variable lib : library.
Variable llm : client.
Variable out : Script.console.

Lemma generate_raises_wrapped (sections : list string) (h h' : heap) (e : exn) :
  generate_website_copy lib llm sections h = (inl e, h') ->
  exists cause : exn, e = wrapped cause.
Proof.
  rewrite generate_website_copy_eq.
  destruct (attempt lib llm sections h) as [[cause|d] h0]; [|discriminate].
  intro E. injection E as <- _. now exists cause.
Qed.

Lemma print_each_works (texts : list string) :
  (forall so_far text, out so_far text = None) ->
  forall so_far,
    Script.print_each out texts so_far = (None, (so_far ++ texts)%list).
Proof.
  intro W. induction texts as [|text rest IH]; intro so_far.
  - cbn. now rewrite app_nil_r.
  - cbn [Script.print_each]. rewrite W, IH, <- app_assoc. reflexivity.
Qed.

Lemma print_each_prefix (texts : list string) :
  forall so_far,
  exists k : nat,
    snd (Script.print_each out texts so_far) = (so_far ++ firstn k texts)%list.
Proof.
  induction texts as [|text rest IH]; intro so_far.
  - exists 0. cbn. now rewrite app_nil_r.
  - cbn [Script.print_each]. destruct (out so_far text).
    + exists 0. cbn. now rewrite app_nil_r.
    + destruct (IH (so_far ++ [text])%list) as [k E].
      exists (S k). rewrite E, <- app_assoc. reflexivity.
Qed.

(** X9.  The example script, on a console that works, prints all or
    nothing: either the four sections in the order asked for, a header
    line with the name in upper case followed by the copy the pipeline
    returned under that name, after ten calls to the client; or the single
    line [Error: Copy generation failed: ...] and no section at all; with
    a client that answers it is the former.  On any console, a run that
    raised prints no section, and a run that returned prints a prefix of
    that listing, followed by at most one [Error: ] line, for the [print]
    that raised. *)
Theorem example_script_prints_all_or_nothing (journal_before : list call) :
  let header := fun name => Script.newline ++ "=== " ++ upper name ++ " ===" in
  let run :=
    generate_website_copy lib llm Sample.sections
      (mk_heap Sample.input_data journal_before) in
  let result := Script.main upper lib llm out journal_before in
  let all :=
    exists c1 c2 c3 c4 : string,
      fst run = inr [("homepage", c1); ("about", c2);
                     ("services", c3); ("contact", c4)] /\
      Script.printed result =
        [header "homepage"; c1; header "about"; c2;
         header "services"; c3; header "contact"; c4] /\
      List.length (Script.journal_after result) =
        List.length journal_before + 10 in
  let nothing :=
    exists cause : exn,
      fst run = inl (wrapped cause) /\
      Script.printed result =
        ["Error: Copy generation failed: " ++ str cause] in
  ((forall so_far text, out so_far text = None) ->
   Script.uncaught result = None /\
   (nothing \/ all) /\
   (reliable llm -> all)) /\
  (forall e : exn,
      fst run = inl e ->
      Script.printed result = [] \/
      Script.printed result = ["Error: " ++ str e]) /\
  (forall d : dict,
      fst run = inr d ->
      exists (k : nat) (tail : list string),
        Script.printed result =
          (firstn k (Script.print_results upper d) ++ tail)%list /\
        (tail = [] \/ exists e : exn, tail = ["Error: " ++ str e])).
Proof.
  cbv zeta.
  set (run := generate_website_copy lib llm Sample.sections
                (mk_heap Sample.input_data journal_before)).
  assert (Shape : forall d h',
             run = (inr d, h') ->
             exists c1 c2 c3 c4 : string,
               d = [("homepage", c1); ("about", c2);
                    ("services", c3); ("contact", c4)] /\
               List.length (journal h') = List.length journal_before + 10).
  { intros d h' E. unfold run in E. apply generate_returns in E.
    destruct E as [research [strategy [value [usps [done [_ [_ [Hs [Hh Hd]]]]]]]]].
    destruct done as [|w1 [|w2 [|w3 [|w4 [|w5 done]]]]]; try discriminate.
    cbn [map] in Hs. injection Hs as S1 S2 S3 S4.
    exists (final_of w1), (final_of w2), (final_of w3), (final_of w4).
    split.
    - rewrite Hd. unfold stored. cbn [fold_left].
      rewrite S1, S2, S3, S4. reflexivity.
    - rewrite Hh. cbn [journal copy_input]. rewrite length_app.
      cbn [List.length section_calls]. lia. }
  split; [|split].
  - intro W.
    assert (All : forall d h',
               run = (inr d, h') ->
               exists c1 c2 c3 c4 : string,
                 fst run = inr [("homepage", c1); ("about", c2);
                                ("services", c3); ("contact", c4)] /\
                 Script.printed (Script.main upper lib llm out journal_before) =
                 [Script.newline ++ "=== " ++ upper "homepage" ++ " ==="; c1;
                  Script.newline ++ "=== " ++ upper "about" ++ " ==="; c2;
                  Script.newline ++ "=== " ++ upper "services" ++ " ==="; c3;
                  Script.newline ++ "=== " ++ upper "contact" ++ " ==="; c4] /\
                 List.length
                   (Script.journal_after
                      (Script.main upper lib llm out journal_before)) =
                 List.length journal_before + 10).
    { intros d h' E. destruct (Shape d h' E) as [c1 [c2 [c3 [c4 [Hd L]]]]].
      exists c1, c2, c3, c4. rewrite E. cbn [fst]. subst d.
      unfold Script.main. fold run. rewrite E.
      rewrite (print_each_works _ W). cbn [Script.printed Script.journal_after].
      split; [reflexivity | split; [reflexivity | exact L]]. }
    split; [|split].
    + unfold Script.main. fold run. destruct run as [[e|d] h'].
      * unfold Script.report. now rewrite W.
      * now rewrite (print_each_works _ W).
    + destruct run as [[e|d] h'] eqn:E.
      * left. unfold run in E.
        destruct (generate_raises_wrapped _ _ _ _ E) as [cause ->].
        exists cause. split; [reflexivity|].
        unfold Script.main. rewrite E. unfold Script.report.
        now rewrite W.
      * right. now apply (All d h').
    + intro Rel.
      destruct (generate_succeeds lib llm Sample.sections
                  (mk_heap Sample.input_data journal_before)
                  ["30-minute delivery"; "local restaurants"; "no minimum order"]
                  Rel eq_refl eq_refl) as [d [h' E]].
      now apply (All d h').
  - intros e E. unfold Script.main. fold run.
    destruct run as [[e0|d] h']; [|discriminate].
    cbn [fst] in E. injection E as ->.
    unfold Script.report.
    destruct (out [] _); cbn [Script.printed]; [now left | now right].
  - intros d E. unfold Script.main. fold run.
    destruct run as [[e0|d0] h']; [discriminate|].
    cbn [fst] in E. injection E as ->.
    destruct (print_each_prefix (Script.print_results upper d) []) as [k P].
    cbn [app] in P.
    destruct (Script.print_each out (Script.print_results upper d) [])
      as [[e|] so_far]; cbn [snd] in P; subst so_far.
    + unfold Script.report.
      destruct (out _ _); cbn [Script.printed].
      * exists k, []. rewrite app_nil_r. auto.
      * exists k, ["Error: " ++ str e]. split; [reflexivity|]. right. eauto.
    + exists k, []. cbn [Script.printed]. rewrite app_nil_r. auto.
Qed.

End ExampleScript.

(** * Properties of [frontend.py] *)

Section SessionState.

Import Frontend.

Lemma state_get_set (k k' : string) (v : value) (s : session_state) :
  state_get k' (state_set k v s) =
  if String.eqb k k' then Some v else state_get k' s.
Proof.
  induction s as [|[k0 v0] s IH]; cbn [state_set state_get].
  - destruct (String.eqb k k'); reflexivity.
  - destruct (String.eqb k0 k) eqn:E0; cbn [state_get].
    + apply String.eqb_eq in E0. subst k0.
      destruct (String.eqb k k'); reflexivity.
    + rewrite IH. destruct (String.eqb k0 k') eqn:E1; [|reflexivity].
      apply String.eqb_eq in E1. subst k0.
      rewrite String.eqb_sym in E0. now rewrite E0.
Qed.

Lemma state_has_set (k : string) (v : value) (s : session_state) :
  state_has k (state_set k v s) = true.
Proof. unfold state_has. now rewrite state_get_set, String.eqb_refl. Qed.

Lemma state_has_set_other (k k' : string) (v : value) (s : session_state) :
  state_has k' s = true -> state_has k' (state_set k v s) = true.
Proof.
  unfold state_has. rewrite state_get_set.
  destruct (String.eqb k k'); [reflexivity | auto].
Qed.

Lemma state_get_ensure (k k' : string) (v : value) (s : session_state) :
  state_get k' (if state_has k s then s else state_set k v s) =
  match state_get k' s with
  | Some x => Some x
  | None => if String.eqb k k' then Some v else None
  end.
Proof.
  unfold state_has. destruct (state_get k s) eqn:A.
  - destruct (state_get k' s) eqn:K; [reflexivity|].
    destruct (String.eqb k k') eqn:E; [|reflexivity].
    apply String.eqb_eq in E. subst k'. rewrite A in K. discriminate.
  - rewrite state_get_set. destruct (String.eqb k k') eqn:E.
    + apply String.eqb_eq in E. subst k'. now rewrite A.
    + now destruct (state_get k' s).
Qed.

(** X10.  [init_session_state] makes sure both entries exist and never
    touches what is there: an entry present before keeps its value (the
    results of an earlier click survive the next run of the script), the
    other entries are left alone, and a second call changes nothing. *)
Theorem init_session_state_keeps_entries (s : session_state) :
  state_has "generated_copy" (init_session_state s) = true /\
  state_has "generation_complete" (init_session_state s) = true /\
  (forall k v, state_get k s = Some v ->
               state_get k (init_session_state s) = Some v) /\
  (forall k, k <> "generated_copy" -> k <> "generation_complete" ->
             state_get k (init_session_state s) = state_get k s) /\
  (state_has "generated_copy" s = false ->
   state_get "generated_copy" (init_session_state s) = Some (Copy [])) /\
  (state_has "generation_complete" s = false ->
   state_get "generation_complete" (init_session_state s) = Some (Flag false)) /\
  init_session_state (init_session_state s) = init_session_state s.
Proof.
  assert (G : forall k,
             state_get k (init_session_state s) =
             match state_get k s with
             | Some v => Some v
             | None =>
                 if String.eqb "generated_copy" k then Some (Copy [])
                 else if String.eqb "generation_complete" k then Some (Flag false)
                 else None
             end).
  { intro k. unfold init_session_state. cbv zeta.
    rewrite !state_get_ensure.
    destruct (state_get k s); [reflexivity|].
    destruct (String.eqb "generated_copy" k); reflexivity. }
  assert (H1 : state_has "generated_copy" (init_session_state s) = true).
  { unfold state_has. rewrite G.
    now destruct (state_get "generated_copy" s). }
  assert (H2 : state_has "generation_complete" (init_session_state s) = true).
  { unfold state_has. rewrite G.
    now destruct (state_get "generation_complete" s). }
  split; [exact H1|]. split; [exact H2|]. split; [|split; [|split; [|split]]].
  - intros k v K. now rewrite G, K.
  - intros k N1 N2. rewrite G.
    destruct (state_get k s); [reflexivity|].
    destruct (String.eqb "generated_copy" k) eqn:E1;
      [apply String.eqb_eq in E1; now subst|].
    destruct (String.eqb "generation_complete" k) eqn:E2;
      [apply String.eqb_eq in E2; now subst|].
    reflexivity.
  - intro A. rewrite G. unfold state_has in A.
    now destruct (state_get "generated_copy" s).
  - intro B. rewrite G. unfold state_has in B.
    now destruct (state_get "generation_complete" s).
  - unfold init_session_state at 1. now rewrite H1, H2.
Qed.

End SessionState.

Section FrontendRun.

Import Frontend.

Variable lower : string -> string.
Variable dumps : dict -> string.
Variable path_join : string -> string -> string.
Variable lib : library.
Variable llm : client.
Variable system : os.

Lemma nonempty_false (s : string) : nonempty s = false <-> s = EmptyString.
Proof. destruct s; cbn; split; intro H; try reflexivity; discriminate. Qed.

(** X11.  A click with an empty product or an empty target audience does
    nothing but show the notice about the required fields: the client is
    not called, nothing is written, and the results of the session stay as
    they were. *)
Theorem click_with_missing_field_does_nothing (f : form) (w : world) :
  clicked f = true ->
  Frontend.product f = EmptyString \/ Frontend.target_audience f = EmptyString ->
  main lower dumps path_join lib llm system f w =
  mk_world (init_session_state (session w)) (llm_journal w) (fs_journal w)
    (screen w ++ [Error "Please fill in all required fields marked with *"]).
Proof.
  intros C E. unfold main, generate_clicked. rewrite C.
  assert (G : negb (nonempty (Frontend.product f))
              || negb (nonempty (Frontend.target_audience f)) = true).
  { destruct E as [-> | ->]; cbn; [reflexivity | apply orb_true_r]. }
  cbv zeta. cbn [session llm_journal fs_journal screen]. now rewrite G.
Qed.

(** X12.  When the pipeline raises, the click shows one notice, the text
    [Error generating copy: Copy generation failed: ] followed by the text
    of the cause.  The session keeps what it held, so earlier results stay
    on display, and nothing is written to disk. *)
Theorem click_reports_pipeline_failure (f : form) (w : world) (e : exn) (h : heap) :
  clicked f = true ->
  nonempty (Frontend.product f) = true ->
  nonempty (Frontend.target_audience f) = true ->
  generate_website_copy lib llm (sections lower f)
    (mk_heap (input_data lower f) (llm_journal w)) = (inl e, h) ->
  exists cause : exn,
    e = wrapped cause /\
    main lower dumps path_join lib llm system f w =
    mk_world (init_session_state (session w)) (journal h) (fs_journal w)
      (screen w ++
       [Error ("Error generating copy: Copy generation failed: " ++ str cause)]).
Proof.
  intros C P A R.
  destruct (generate_raises_wrapped lib llm _ _ _ _ R) as [cause ->].
  exists cause. split; [reflexivity|].
  unfold main, generate_clicked. rewrite C. cbv zeta.
  cbn [session llm_journal fs_journal screen].
  rewrite P, A. cbn [negb orb]. now rewrite R.
Qed.

(** X13.  When the pipeline has returned and saving the file fails, in
    [mkdir] or while writing, the click shows the error notice and no
    success notice; but the results are already in the session, marked
    complete, and the next run of the script displays them. *)
Theorem click_keeps_results_when_saving_fails (f : form) (w : world)
    (results : dict) (h : heap) (e : exn) :
  clicked f = true ->
  nonempty (Frontend.product f) = true ->
  nonempty (Frontend.target_audience f) = true ->
  generate_website_copy lib llm (sections lower f)
    (mk_heap (input_data lower f) (llm_journal w)) = (inr results, h) ->
  (let made := mk_fs_event (Mkdir "generated_copy") None in
   let file :=
     WriteText
       (path_join "generated_copy"
          (replace_spaces (lower (Frontend.product f)) ++ "_copy.json"))
       (dumps results) in
   system (fs_journal w) (Mkdir "generated_copy") = Some e \/
   (system (fs_journal w) (Mkdir "generated_copy") = None /\
    system (fs_journal w ++ [made])%list file = Some e)) ->
  state_get "generated_copy" (session (main lower dumps path_join lib llm system f w)) = Some (Copy results) /\
  state_get "generation_complete" (session (main lower dumps path_join lib llm system f w)) = Some (Flag true) /\
  screen (main lower dumps path_join lib llm system f w) =
    (screen w ++ [Error ("Error generating copy: " ++ str e)])%list /\
  llm_journal (main lower dumps path_join lib llm system f w) = journal h.
Proof.
  intros C P A R S. cbv zeta in S.
  unfold main, generate_clicked. rewrite C. cbv zeta.
  cbn [session llm_journal fs_journal screen].
  rewrite P, A. cbn [negb orb]. rewrite R.
  unfold save_results, perform, store, notify.
  cbn [session llm_journal fs_journal screen].
  assert (St : forall s : session_state,
             state_get "generated_copy"
               (state_set "generation_complete" (Flag true)
                  (state_set "generated_copy" (Copy results) s)) =
               Some (Copy results) /\
             state_get "generation_complete"
               (state_set "generation_complete" (Flag true)
                  (state_set "generated_copy" (Copy results) s)) =
               Some (Flag true)).
  { intro s. rewrite !state_get_set. split; reflexivity. }
  destruct S as [M | [M Wr]].
  - rewrite M. cbn [session screen llm_journal].
    destruct (St (init_session_state (session w))) as [S1 S2]. auto.
  - rewrite M, Wr. cbn [session screen llm_journal].
    destruct (St (init_session_state (session w))) as [S1 S2]. auto.
Qed.

(** X14.  When the pipeline has returned and the file system works, the
    click stores the results in the session and marks them complete,
    creates the directory [generated_copy] and writes one file there,
    named after the lower-cased product with its spaces replaced by
    underscores and holding the JSON text of the results, and shows the
    success notice. *)
Theorem click_stores_and_saves_results (f : form) (w : world)
    (results : dict) (h : heap) :
  clicked f = true ->
  nonempty (Frontend.product f) = true ->
  nonempty (Frontend.target_audience f) = true ->
  generate_website_copy lib llm (sections lower f)
    (mk_heap (input_data lower f) (llm_journal w)) = (inr results, h) ->
  system (fs_journal w) (Mkdir "generated_copy") = None ->
  system (fs_journal w ++ [mk_fs_event (Mkdir "generated_copy") None])%list
    (WriteText
       (path_join "generated_copy"
          (replace_spaces (lower (Frontend.product f)) ++ "_copy.json"))
       (dumps results)) = None ->
  main lower dumps path_join lib llm system f w =
  mk_world
    (state_set "generation_complete" (Flag true)
       (state_set "generated_copy" (Copy results)
          (init_session_state (session w))))
    (journal h)
    (fs_journal w ++
     [mk_fs_event (Mkdir "generated_copy") None;
      mk_fs_event
        (WriteText
           (path_join "generated_copy"
              (replace_spaces (lower (Frontend.product f)) ++ "_copy.json"))
           (dumps results))
        None])
    (screen w ++ [Success "✅ Copy generated successfully!"]).
Proof.
  intros C P A R Ok1 Ok2.
  unfold main, generate_clicked. rewrite C. cbv zeta.
  cbn [session llm_journal fs_journal screen].
  rewrite P, A. cbn [negb orb]. rewrite R.
  unfold save_results, perform, store, notify.
  cbn [session llm_journal fs_journal screen].
  rewrite Ok1. cbn [session llm_journal fs_journal screen].
  rewrite Ok2. cbn [session llm_journal fs_journal screen].
  now rewrite <- app_assoc.
Qed.

Lemma length_sections (f : form) : List.length (sections lower f) <= 5.
Proof.
  unfold sections. rewrite length_app, length_map.
  pose proof (filter_length_le (checked f) standard_sections) as L.
  cbn [standard_sections List.length] in L.
  destruct (nonempty (custom_section f)); cbn [List.length]; lia.
Qed.

(** X15.  One run of the script calls the client at most twelve times, two
    calls and two more for each of at most five sections; it only adds to
    the journal of the client. *)
Theorem script_run_costs_at_most_twelve_calls (f : form) (w : world) :
  exists new : list call,
    llm_journal (main lower dumps path_join lib llm system f w) = (llm_journal w ++ new)%list /\
    List.length new <= 12.
Proof.
  unfold main, generate_clicked.
  destruct (clicked f).
  2: { exists []. cbn. rewrite app_nil_r. split; [reflexivity | lia]. }
  cbv zeta. cbn [session llm_journal fs_journal screen].
  destruct (negb (nonempty (Frontend.product f))
            || negb (nonempty (Frontend.target_audience f))).
  { exists []. cbn. rewrite app_nil_r. split; [reflexivity | lia]. }
  destruct (attempt_adds_between lib llm (sections lower f)
              (mk_heap (input_data lower f) (llm_journal w)))
    as [new [J L]].
  rewrite <- journal_generate in J. cbn [journal] in J.
  pose proof (length_sections f) as L5.
  exists new. split; [|lia].
  destruct (generate_website_copy lib llm (sections lower f)
              (mk_heap (input_data lower f) (llm_journal w)))
    as [[e|results] h].
  - cbn [snd] in J. exact J.
  - cbn [snd] in J. unfold save_results, perform, store, notify.
    cbn [session llm_journal fs_journal screen].
    destruct (system _ (Mkdir _)); cbn [llm_journal]; [exact J|].
    destruct (system _ (WriteText _ _)); cbn [llm_journal]; exact J.
Qed.

(** X16.  The request the front end hands to the pipeline always holds a
    list of selling points, at most [usp_count] of them and none of them
    empty; and the client is only ever called for a request whose product
    and target audience are not empty. *)
Theorem front_end_request_is_filled (f : form) (w : world) :
  (exists items : list string,
      unique_selling_points (input_data lower f) = Some items /\
      items = usps f /\
      Forall (fun item => item <> EmptyString) items /\
      List.length items <= usp_count f) /\
  (llm_journal (main lower dumps path_join lib llm system f w) <> llm_journal w ->
   Backend.product (input_data lower f) <> EmptyString /\
   Backend.target_audience (input_data lower f) <> EmptyString).
Proof.
  split.
  - exists (usps f). split; [|split; [reflexivity|split]].
    + unfold input_data, new_CopyInput, post_init.
      cbn [unique_selling_points]. now destruct (usps f).
    + unfold usps. apply Forall_forall. intros item I.
      apply filter_In in I. destruct I as [_ N]. intros ->. discriminate.
    + unfold usps.
      pose proof (filter_length_le nonempty
                    (map (usp_input f) (seq 0 (usp_count f)))) as L.
      now rewrite length_map, length_seq in L.
  - intro Changed. unfold input_data, new_CopyInput, post_init.
    cbn [Backend.product Backend.target_audience].
    unfold main, generate_clicked in Changed.
    destruct (clicked f); [|now cbn in Changed].
    cbv zeta in Changed. cbn [session llm_journal fs_journal screen] in Changed.
    destruct (nonempty (Frontend.product f)) eqn:P;
      [|now cbn in Changed].
    destruct (nonempty (Frontend.target_audience f)) eqn:A;
      [|now cbn in Changed].
    split; intro E; rewrite E in *; discriminate.
Qed.

End FrontendRun.

(** ** The further properties on sample runs *)

Lemma drafting_agent_needs_a_list_witness :
  unique_selling_points
    (mk_CopyInput "p" "t" "l" "i" "a" "b" None) = None /\
  write_website_copy Sample.lib Sample.constant "plan" "homepage"
    (mk_heap (mk_CopyInput "p" "t" "l" "i" "a" "b" None) []) =
  (inl (TypeError "can only join an iterable"),
   mk_heap (mk_CopyInput "p" "t" "l" "i" "a" "b" None) []).
Proof.
  split; [reflexivity|].
  exact (proj2 (drafting_agent_needs_a_list Sample.lib Sample.constant
                  "plan" "homepage"
                  (mk_heap (mk_CopyInput "p" "t" "l" "i" "a" "b" None) []))
           eq_refl).
Defined.

Lemma failed_call_is_the_last_witness :
  new_calls
    (generate_website_copy Sample.lib (Sample.fails_on 2) Sample.sections)
    (Sample.fresh Sample.input_data) =
  ([mk_call ResearchAgent (research_value Sample.input_data) (inr "copy")]
   ++ mk_call StrategyAgent
        (strategy_value "copy" Sample.input_data
           "30-minute delivery, local restaurants, no minimum order")
        (inl (mk_exn "RuntimeError" "rate limit exceeded"))
      :: [])%list /\
  outcome
    (generate_website_copy Sample.lib (Sample.fails_on 2) Sample.sections)
    (Sample.fresh Sample.input_data) =
  inl (wrapped (mk_exn "RuntimeError" "rate limit exceeded")).
Proof.
  assert (N : new_calls
                (generate_website_copy Sample.lib (Sample.fails_on 2)
                   Sample.sections)
                (Sample.fresh Sample.input_data) =
              ([mk_call ResearchAgent (research_value Sample.input_data)
                  (inr "copy")]
               ++ mk_call StrategyAgent
                    (strategy_value "copy" Sample.input_data
                       "30-minute delivery, local restaurants, no minimum order")
                    (inl (mk_exn "RuntimeError" "rate limit exceeded"))
                  :: [])%list)
    by (vm_compute; reflexivity).
  split; [exact N|].
  exact (proj2 (proj2 (failed_call_is_the_last Sample.lib
                         (Sample.fails_on 2) Sample.sections
                         (Sample.fresh Sample.input_data) _ _ _ _ N eq_refl))).
Defined.

Lemma generate_returns_with_answering_client_witness :
  reliable Sample.constant /\
  no_braces (tone Sample.input_data) = true /\
  exists (d : dict) (h' : heap),
    generate_website_copy Sample.lib Sample.constant Sample.sections
      (Sample.fresh Sample.input_data) = (inr d, h') /\
    keys d = first_occurrences Sample.sections /\
    copy_input h' = Sample.input_data /\
    List.length (journal h') = 0 + 2 + 2 * 4.
Proof.
  assert (Rel : reliable Sample.constant)
    by (intros j value; exists "copy"; reflexivity).
  split; [exact Rel|]. split; [reflexivity|].
  exact (generate_returns_with_answering_client Sample.lib Sample.constant
           Sample.sections (Sample.fresh Sample.input_data)
           ["30-minute delivery"; "local restaurants"; "no minimum order"]
           Rel eq_refl eq_refl).
Defined.

Lemma example_script_prints_all_or_nothing_witness :
  (forall (so_far : list string) (text : string),
      (fun _ _ => None : option exn) so_far text = None) /\
  reliable Sample.constant /\
  exists c1 c2 c3 c4 : string,
    fst (generate_website_copy Sample.lib Sample.constant Sample.sections
           (mk_heap Sample.input_data [])) =
      inr [("homepage", c1); ("about", c2);
           ("services", c3); ("contact", c4)] /\
    Script.printed
      (Script.main (fun name => name) Sample.lib Sample.constant
         (fun _ _ => None) []) =
      [Script.newline ++ "=== " ++ "homepage" ++ " ==="; c1;
       Script.newline ++ "=== " ++ "about" ++ " ==="; c2;
       Script.newline ++ "=== " ++ "services" ++ " ==="; c3;
       Script.newline ++ "=== " ++ "contact" ++ " ==="; c4] /\
    List.length
      (Script.journal_after
         (Script.main (fun name => name) Sample.lib Sample.constant
            (fun _ _ => None) [])) = 0 + 10.
Proof.
  assert (Rel : reliable Sample.constant)
    by (intros j value; exists "copy"; reflexivity).
  split; [reflexivity|]. split; [exact Rel|].
  exact (proj2 (proj2 (proj1
           (example_script_prints_all_or_nothing (fun name => name)
              Sample.lib Sample.constant (fun _ _ => None) [])
           (fun _ _ => eq_refl))) Rel).
Defined.

Lemma escaped_tone_builds_the_strategy_prompt_witness :
  tone (copy_input (Sample.fresh (Sample.with_tone "{{bold}}"))) =
    escape_braces "{bold}" /\
  create_content_strategy Sample.lib Sample.constant "insights"
    (Sample.fresh (Sample.with_tone "{{bold}}")) =
  llm_invoke Sample.constant StrategyAgent
    [(system, "You are a content strategist specializing in {bold} copy.");
     (human,
      strategy_text "insights" (Sample.with_tone "{{bold}}")
        "30-minute delivery, local restaurants, no minimum order")]
    (Sample.fresh (Sample.with_tone "{{bold}}")).
Proof.
  split; [reflexivity|].
  exact (escaped_tone_builds_the_strategy_prompt Sample.lib Sample.constant
           "insights" (Sample.fresh (Sample.with_tone "{{bold}}"))
           ["30-minute delivery"; "local restaurants"; "no minimum order"]
           "{bold}" eq_refl eq_refl).
Defined.

Lemma tone_naming_a_variable_witness :
  plain_name "product" = true /\
  plain_name "brand" = true /\
  create_content_strategy Sample.lib Sample.constant "insights"
    (Sample.fresh (Sample.with_tone "{product}")) =
  llm_invoke Sample.constant StrategyAgent
    [(system,
      "You are a content strategist specializing in food delivery website copy.");
     (human,
      strategy_text "insights" (Sample.with_tone "{product}")
        "30-minute delivery, local restaurants, no minimum order")]
    (Sample.fresh (Sample.with_tone "{product}")) /\
  create_content_strategy Sample.lib Sample.constant "insights"
    (Sample.fresh (Sample.with_tone "{brand}")) =
  (inl (mk_exn "KeyError" "brand"), Sample.fresh (Sample.with_tone "{brand}")).
Proof.
  split; [reflexivity|]. split; [reflexivity|]. split.
  - exact (tone_naming_a_variable Sample.lib Sample.constant "insights"
             (Sample.fresh (Sample.with_tone "{product}"))
             ["30-minute delivery"; "local restaurants"; "no minimum order"]
             "product" eq_refl eq_refl eq_refl).
  - exact (tone_naming_a_variable Sample.lib Sample.constant "insights"
             (Sample.fresh (Sample.with_tone "{brand}"))
             ["30-minute delivery"; "local restaurants"; "no minimum order"]
             "brand" eq_refl eq_refl eq_refl).
Defined.

Lemma click_with_missing_field_does_nothing_witness :
  Frontend.clicked FrontendSample.no_product = true /\
  Frontend.product FrontendSample.no_product = EmptyString /\
  Frontend.main FrontendSample.lower FrontendSample.dumps
    FrontendSample.path_join Sample.lib Sample.constant FrontendSample.works
    FrontendSample.no_product FrontendSample.later =
  Frontend.mk_world
    (Frontend.session FrontendSample.later) [] []
    [Frontend.Error "Please fill in all required fields marked with *"].
Proof.
  split; [reflexivity|]. split; [reflexivity|].
  exact (click_with_missing_field_does_nothing FrontendSample.lower
           FrontendSample.dumps FrontendSample.path_join Sample.lib
           Sample.constant FrontendSample.works FrontendSample.no_product
           FrontendSample.later eq_refl (or_introl eq_refl)).
Defined.

Lemma click_reports_pipeline_failure_witness :
  FrontendSample.run_filled (Sample.fails_on 1) =
  (inl (wrapped (mk_exn "RuntimeError" "rate limit exceeded")),
   snd (FrontendSample.run_filled (Sample.fails_on 1))) /\
  Frontend.screen
    (Frontend.main FrontendSample.lower FrontendSample.dumps
       FrontendSample.path_join Sample.lib (Sample.fails_on 1)
       FrontendSample.works FrontendSample.filled FrontendSample.start) =
  [Frontend.Error
     "Error generating copy: Copy generation failed: rate limit exceeded"].
Proof.
  assert (R : generate_website_copy Sample.lib (Sample.fails_on 1)
                (Frontend.sections FrontendSample.lower FrontendSample.filled)
                (mk_heap
                   (Frontend.input_data FrontendSample.lower FrontendSample.filled)
                   (Frontend.llm_journal FrontendSample.start)) =
              (inl (wrapped (mk_exn "RuntimeError" "rate limit exceeded")),
               snd (FrontendSample.run_filled (Sample.fails_on 1))))
    by (vm_compute; reflexivity).
  split; [exact R|].
  destruct (click_reports_pipeline_failure FrontendSample.lower
              FrontendSample.dumps FrontendSample.path_join Sample.lib
              (Sample.fails_on 1) FrontendSample.works FrontendSample.filled
              FrontendSample.start _ _ eq_refl eq_refl eq_refl R)
    as [cause [E M]].
  rewrite M. cbn [Frontend.screen].
  injection E as E. rewrite <- E. reflexivity.
Defined.

Lemma click_keeps_results_when_saving_fails_witness :
  FrontendSample.run_filled Sample.constant =
  (inr FrontendSample.results_filled,
   snd (FrontendSample.run_filled Sample.constant)) /\
  Frontend.state_get "generated_copy"
    (Frontend.session
       (Frontend.main FrontendSample.lower FrontendSample.dumps
          FrontendSample.path_join Sample.lib Sample.constant
          FrontendSample.disk_full FrontendSample.filled FrontendSample.start))
  = Some (Frontend.Copy FrontendSample.results_filled) /\
  Frontend.screen
    (Frontend.main FrontendSample.lower FrontendSample.dumps
       FrontendSample.path_join Sample.lib Sample.constant
       FrontendSample.disk_full FrontendSample.filled FrontendSample.start)
  = [Frontend.Error "Error generating copy: No space left on device"].
Proof.
  assert (R : generate_website_copy Sample.lib Sample.constant
                (Frontend.sections FrontendSample.lower FrontendSample.filled)
                (mk_heap
                   (Frontend.input_data FrontendSample.lower FrontendSample.filled)
                   (Frontend.llm_journal FrontendSample.start)) =
              (inr FrontendSample.results_filled,
               snd (FrontendSample.run_filled Sample.constant)))
    by (vm_compute; reflexivity).
  split; [exact R|].
  destruct (click_keeps_results_when_saving_fails FrontendSample.lower
              FrontendSample.dumps FrontendSample.path_join Sample.lib
              Sample.constant FrontendSample.disk_full FrontendSample.filled
              FrontendSample.start _ _
              (mk_exn "OSError" "No space left on device")
              eq_refl eq_refl eq_refl R (or_intror (conj eq_refl eq_refl)))
    as [S1 [_ [S3 _]]].
  split; [exact S1 | exact S3].
Defined.

Lemma click_stores_and_saves_results_witness :
  FrontendSample.run_filled Sample.constant =
  (inr FrontendSample.results_filled,
   snd (FrontendSample.run_filled Sample.constant)) /\
  map Frontend.operation
    (Frontend.fs_journal
       (Frontend.main FrontendSample.lower FrontendSample.dumps
          FrontendSample.path_join Sample.lib Sample.constant
          FrontendSample.works FrontendSample.filled FrontendSample.start))
  = [Frontend.Mkdir "generated_copy";
     Frontend.WriteText "generated_copy/food_delivery_copy.json"
       (FrontendSample.dumps FrontendSample.results_filled)].
Proof.
  assert (R : generate_website_copy Sample.lib Sample.constant
                (Frontend.sections FrontendSample.lower FrontendSample.filled)
                (mk_heap
                   (Frontend.input_data FrontendSample.lower FrontendSample.filled)
                   (Frontend.llm_journal FrontendSample.start)) =
              (inr FrontendSample.results_filled,
               snd (FrontendSample.run_filled Sample.constant)))
    by (vm_compute; reflexivity).
  split; [exact R|].
  rewrite (click_stores_and_saves_results FrontendSample.lower
             FrontendSample.dumps FrontendSample.path_join Sample.lib
             Sample.constant FrontendSample.works FrontendSample.filled
             FrontendSample.start _ _ eq_refl eq_refl eq_refl R
             eq_refl eq_refl).
  reflexivity.
Defined.
